(** * Emergency response system: location resolution, ETA estimation and
      vehicle dispatch ([app.py])

    A shallow embedding of the [RealTimeProcessor] class and of the request
    handlers of [app.py], followed by the properties of the specification
    that are established (or refuted) on that embedding.

    Conventions.
    - Python floats are IEEE binary64 numbers: [PrimFloat.float].
    - A JSON scalar (the values found under the coordinate keys of a request
      body or of the vehicle catalog) is a [value]: [null], a number (an
      [int] or a [float]) or a string.
    - A string ([str]) is represented by its UTF-8 encoding.
    - A JSON object holding coordinates is a finite map from keys to values.
    - A vehicle (a [dict] with a fixed set of keys in the catalog) is a
      record; the registry [processor.vehicles] is a list of them, mutated
      in place through its indices.
    - The functions of the C math library that Rocq cannot evaluate
      ([sin], [cos], [atan2], [pow]) and the two float/text conversions are
      the fields of the class [PyRuntime]; every statement holds for all
      their implementations.
    - A handler returns the registry state it leaves behind together with
      its response; an exception escaping a handler does not undo the
      writes made before it. *)

From Stdlib Require Import ZArith Floats.PrimFloat Floats.SpecFloat Floats.FloatOps
  Floats.FloatAxioms.
From stdpp Require Import gmap strings list fin_maps pretty.

Set Warnings "-inexact-float".

(** ** Python numbers and JSON scalars *)

Inductive num : Type :=
| NInt (z : Z)
| NFloat (f : float).

Inductive value : Type :=
| VNone
| VNum (n : num)
| VStr (s : string).

Abbreviation Dict := (gmap string value).

(** Truth value of a scalar, as tested by [all([...])]: [None], [0], [0.0],
    [-0.0] and the empty string are false; [nan] is true. *)
Definition truthy (v : value) : bool :=
  match v with
  | VNone => false
  | VNum (NInt z) => negb (z =? 0)%Z
  | VNum (NFloat f) => negb (PrimFloat.eqb f 0)
  | VStr s => negb (String.eqb s "")
  end.

(** [not d] for an optional JSON object: [None] and [{}] are false. *)
Definition dict_truthy (d : option Dict) : bool :=
  match d with
  | Some m => negb (size m =? 0)%nat
  | None => false
  end.

(** [d.get(k1, d.get(k2))] *)
Definition get2 (d : Dict) (k1 k2 : string) : value :=
  default (default VNone (d !! k2)) (d !! k1).

(** ** Floating point helpers *)

(** [int.__float__]: the nearest double, ties to even; [OverflowError]
    (here [None]) when the integer is too large. *)
Definition float_of_Z (z : Z) : option float :=
  let f := SF2Prim (binary_normalize prec emax z 0 false) in
  if PrimFloat.is_infinity f then None else Some f.

(** The integer nearest to [num / den] ([den > 0]), ties to the even one. *)
Definition round_half_even (n d : Z) : Z :=
  let q := (n / d)%Z in
  let r := (n mod d)%Z in
  match (2 * r ?= d)%Z with
  | Lt => q
  | Gt => (q + 1)%Z
  | Eq => if Z.even q then q else (q + 1)%Z
  end.

(** The double nearest to the rational [n / d], with the sign [neg]. *)
Definition float_of_ratio (neg : bool) (n d : positive) : float :=
  SF2Prim (SFdiv prec emax (S754_finite neg n 0) (S754_finite false d 0)).

(** [round(x, 1)] on a float: the exact value of [x] is rounded to the
    nearest multiple of one tenth (ties to the even digit) and that decimal
    is converted back to the nearest double; zeros, infinities and [nan]
    are returned as they are. *)
Definition round1 (x : float) : float :=
  match Prim2SF x with
  | S754_finite s m e =>
      let tenths :=
        if (0 <=? e)%Z then (10 * Z.pos m * 2 ^ e)%Z
        else round_half_even (10 * Z.pos m) (2 ^ (- e)) in
      match tenths with
      | Z.pos p => float_of_ratio s p 10
      | _ => if s then (-0)%float else 0%float
      end
  | _ => x
  end.

(** Exact comparison of a float with an integer ([float.__eq__(int)]). *)
Definition float_eq_Z (f : float) (z : Z) : bool :=
  match Prim2SF f with
  | S754_zero _ => (z =? 0)%Z
  | S754_finite s m e =>
      let a := if s then Z.neg m else Z.pos m in
      if (0 <=? e)%Z then (z =? a * 2 ^ e)%Z
      else ((a mod 2 ^ (- e) =? 0) && (z =? a / 2 ^ (- e)))%Z
  | _ => false
  end.

(** [x == y] on numbers. *)
Definition num_eq (x y : num) : bool :=
  match x, y with
  | NInt a, NInt b => (a =? b)%Z
  | NFloat a, NFloat b => PrimFloat.eqb a b
  | NInt a, NFloat b => float_eq_Z b a
  | NFloat a, NInt b => float_eq_Z a b
  end.

(** [x == y] on JSON scalars. *)
Definition py_eq (x y : value) : bool :=
  match x, y with
  | VNone, VNone => true
  | VNum a, VNum b => num_eq a b
  | VStr a, VStr b => String.eqb a b
  | _, _ => false
  end.

(** [n > 0] on numbers ([nan > 0] is false). *)
Definition num_gt0 (n : num) : bool :=
  match n with
  | NInt z => (0 <? z)%Z
  | NFloat f => PrimFloat.ltb 0 f
  end.

(** [n == 0] on numbers. *)
Definition num_is0 (n : num) : bool :=
  match n with
  | NInt z => (z =? 0)%Z
  | NFloat f => PrimFloat.eqb f 0
  end.

(** [math.sqrt]: [ValueError] on a negative argument. *)
Definition m_sqrt (x : float) : option float :=
  if PrimFloat.ltb x 0 then None else Some (PrimFloat.sqrt x).

(** [math.radians]: multiplication by [pi / 180]. *)
Definition radians (x : float) : float :=
  (x * (3.141592653589793 / 180))%float.

(** ** Text

    A [str] is represented by its UTF-8 encoding: equality, emptiness and
    concatenation are those of the byte strings. [str.upper] maps every
    character on its own; the two tables below list the characters that it
    changes (full case mapping of Unicode 14). *)

Section Text.
Local Open Scope N_scope.

(** Characters with a one-character image, by runs
    [(first, last, step, image of first)]: the characters [first],
    [first + step], ..., [last] have the images [image], [image + step],
    ... *)
Definition upper_runs : list (N * N * N * N) :=
  [
  (97, 122, 1, 65); (181, 181, 1, 924); (224, 246, 1, 192);
   (248, 254, 1, 216); (255, 255, 1, 376); (257, 303, 2, 256);
   (305, 305, 1, 73); (307, 311, 2, 306); (314, 328, 2, 313);
   (331, 375, 2, 330); (378, 382, 2, 377); (383, 383, 1, 83);
   (384, 384, 1, 579); (387, 389, 2, 386); (392, 392, 1, 391);
   (396, 396, 1, 395); (402, 402, 1, 401); (405, 405, 1, 502);
   (409, 409, 1, 408); (410, 410, 1, 573); (414, 414, 1, 544);
   (417, 421, 2, 416); (424, 424, 1, 423); (429, 429, 1, 428);
   (432, 432, 1, 431); (436, 438, 2, 435); (441, 441, 1, 440);
   (445, 445, 1, 444); (447, 447, 1, 503); (453, 453, 1, 452);
   (454, 454, 1, 452); (456, 456, 1, 455); (457, 457, 1, 455);
   (459, 459, 1, 458); (460, 460, 1, 458); (462, 476, 2, 461);
   (477, 477, 1, 398); (479, 495, 2, 478); (498, 498, 1, 497);
   (499, 499, 1, 497); (501, 501, 1, 500); (505, 543, 2, 504);
   (547, 563, 2, 546); (572, 572, 1, 571); (575, 576, 1, 11390);
   (578, 578, 1, 577); (583, 591, 2, 582); (592, 592, 1, 11375);
   (593, 593, 1, 11373); (594, 594, 1, 11376); (595, 595, 1, 385);
   (596, 596, 1, 390); (598, 599, 1, 393); (601, 601, 1, 399);
   (603, 603, 1, 400); (604, 604, 1, 42923); (608, 608, 1, 403);
   (609, 609, 1, 42924); (611, 611, 1, 404); (613, 613, 1, 42893);
   (614, 614, 1, 42922); (616, 616, 1, 407); (617, 617, 1, 406);
   (618, 618, 1, 42926); (619, 619, 1, 11362); (620, 620, 1, 42925);
   (623, 623, 1, 412); (625, 625, 1, 11374); (626, 626, 1, 413);
   (629, 629, 1, 415); (637, 637, 1, 11364); (640, 640, 1, 422);
   (642, 642, 1, 42949); (643, 643, 1, 425); (647, 647, 1, 42929);
   (648, 648, 1, 430); (649, 649, 1, 580); (650, 651, 1, 433);
   (652, 652, 1, 581); (658, 658, 1, 439); (669, 669, 1, 42930);
   (670, 670, 1, 42928); (837, 837, 1, 921); (881, 883, 2, 880);
   (887, 887, 1, 886); (891, 893, 1, 1021); (940, 940, 1, 902);
   (941, 943, 1, 904); (945, 961, 1, 913); (962, 962, 1, 931);
   (963, 971, 1, 931); (972, 972, 1, 908); (973, 974, 1, 910);
   (976, 976, 1, 914); (977, 977, 1, 920); (981, 981, 1, 934);
   (982, 982, 1, 928); (983, 983, 1, 975); (985, 1007, 2, 984);
   (1008, 1008, 1, 922); (1009, 1009, 1, 929); (1010, 1010, 1, 1017);
   (1011, 1011, 1, 895); (1013, 1013, 1, 917); (1016, 1016, 1, 1015);
   (1019, 1019, 1, 1018); (1072, 1103, 1, 1040); (1104, 1119, 1, 1024);
   (1121, 1153, 2, 1120); (1163, 1215, 2, 1162); (1218, 1230, 2, 1217);
   (1231, 1231, 1, 1216); (1233, 1327, 2, 1232); (1377, 1414, 1, 1329);
   (4304, 4346, 1, 7312); (4349, 4351, 1, 7357); (5112, 5117, 1, 5104);
   (7296, 7296, 1, 1042); (7297, 7297, 1, 1044); (7298, 7298, 1, 1054);
   (7299, 7300, 1, 1057); (7301, 7301, 1, 1058); (7302, 7302, 1, 1066);
   (7303, 7303, 1, 1122); (7304, 7304, 1, 42570); (7545, 7545, 1, 42877);
   (7549, 7549, 1, 11363); (7566, 7566, 1, 42950); (7681, 7829, 2, 7680);
   (7835, 7835, 1, 7776); (7841, 7935, 2, 7840); (7936, 7943, 1, 7944);
   (7952, 7957, 1, 7960); (7968, 7975, 1, 7976); (7984, 7991, 1, 7992);
   (8000, 8005, 1, 8008); (8017, 8023, 2, 8025); (8032, 8039, 1, 8040);
   (8048, 8049, 1, 8122); (8050, 8053, 1, 8136); (8054, 8055, 1, 8154);
   (8056, 8057, 1, 8184); (8058, 8059, 1, 8170); (8060, 8061, 1, 8186);
   (8112, 8113, 1, 8120); (8126, 8126, 1, 921); (8144, 8145, 1, 8152);
   (8160, 8161, 1, 8168); (8165, 8165, 1, 8172); (8526, 8526, 1, 8498);
   (8560, 8575, 1, 8544); (8580, 8580, 1, 8579); (9424, 9449, 1, 9398);
   (11312, 11359, 1, 11264); (11361, 11361, 1, 11360);
   (11365, 11365, 1, 570); (11366, 11366, 1, 574); (11368, 11372, 2, 11367);
   (11379, 11379, 1, 11378); (11382, 11382, 1, 11381);
   (11393, 11491, 2, 11392); (11500, 11502, 2, 11499);
   (11507, 11507, 1, 11506); (11520, 11557, 1, 4256);
   (11559, 11559, 1, 4295); (11565, 11565, 1, 4301);
   (42561, 42605, 2, 42560); (42625, 42651, 2, 42624);
   (42787, 42799, 2, 42786); (42803, 42863, 2, 42802);
   (42874, 42876, 2, 42873); (42879, 42887, 2, 42878);
   (42892, 42892, 1, 42891); (42897, 42899, 2, 42896);
   (42900, 42900, 1, 42948); (42903, 42921, 2, 42902);
   (42933, 42947, 2, 42932); (42952, 42954, 2, 42951);
   (42961, 42961, 1, 42960); (42967, 42969, 2, 42966);
   (42998, 42998, 1, 42997); (43859, 43859, 1, 42931);
   (43888, 43967, 1, 5024); (65345, 65370, 1, 65313);
   (66600, 66639, 1, 66560); (66776, 66811, 1, 66736);
   (66967, 66977, 1, 66928); (66979, 66993, 1, 66940);
   (66995, 67001, 1, 66956); (67003, 67004, 1, 66964);
   (68800, 68850, 1, 68736); (71872, 71903, 1, 71840);
   (93792, 93823, 1, 93760); (125218, 125251, 1, 125184)
  ].

(** Characters with an image of several characters:
    [(character, (first of the image, rest of the image))]. *)
Definition upper_specials : list (N * (N * list N)) :=
  [
  (223, (83, [83])); (329, (700, [78])); (496, (74, [780]));
   (912, (921, [776; 769])); (944, (933, [776; 769]));
   (1415, (1333, [1362])); (7830, (72, [817])); (7831, (84, [776]));
   (7832, (87, [778])); (7833, (89, [778])); (7834, (65, [702]));
   (8016, (933, [787])); (8018, (933, [787; 768]));
   (8020, (933, [787; 769])); (8022, (933, [787; 834]));
   (8064, (7944, [921])); (8065, (7945, [921])); (8066, (7946, [921]));
   (8067, (7947, [921])); (8068, (7948, [921])); (8069, (7949, [921]));
   (8070, (7950, [921])); (8071, (7951, [921])); (8072, (7944, [921]));
   (8073, (7945, [921])); (8074, (7946, [921])); (8075, (7947, [921]));
   (8076, (7948, [921])); (8077, (7949, [921])); (8078, (7950, [921]));
   (8079, (7951, [921])); (8080, (7976, [921])); (8081, (7977, [921]));
   (8082, (7978, [921])); (8083, (7979, [921])); (8084, (7980, [921]));
   (8085, (7981, [921])); (8086, (7982, [921])); (8087, (7983, [921]));
   (8088, (7976, [921])); (8089, (7977, [921])); (8090, (7978, [921]));
   (8091, (7979, [921])); (8092, (7980, [921])); (8093, (7981, [921]));
   (8094, (7982, [921])); (8095, (7983, [921])); (8096, (8040, [921]));
   (8097, (8041, [921])); (8098, (8042, [921])); (8099, (8043, [921]));
   (8100, (8044, [921])); (8101, (8045, [921])); (8102, (8046, [921]));
   (8103, (8047, [921])); (8104, (8040, [921])); (8105, (8041, [921]));
   (8106, (8042, [921])); (8107, (8043, [921])); (8108, (8044, [921]));
   (8109, (8045, [921])); (8110, (8046, [921])); (8111, (8047, [921]));
   (8114, (8122, [921])); (8115, (913, [921])); (8116, (902, [921]));
   (8118, (913, [834])); (8119, (913, [834; 921])); (8124, (913, [921]));
   (8130, (8138, [921])); (8131, (919, [921])); (8132, (905, [921]));
   (8134, (919, [834])); (8135, (919, [834; 921])); (8140, (919, [921]));
   (8146, (921, [776; 768])); (8147, (921, [776; 769]));
   (8150, (921, [834])); (8151, (921, [776; 834]));
   (8162, (933, [776; 768])); (8163, (933, [776; 769]));
   (8164, (929, [787])); (8166, (933, [834])); (8167, (933, [776; 834]));
   (8178, (8186, [921])); (8179, (937, [921])); (8180, (911, [921]));
   (8182, (937, [834])); (8183, (937, [834; 921])); (8188, (937, [921]));
   (64256, (70, [70])); (64257, (70, [73])); (64258, (70, [76]));
   (64259, (70, [70; 73])); (64260, (70, [70; 76])); (64261, (83, [84]));
   (64262, (83, [84])); (64275, (1348, [1350])); (64276, (1348, [1333]));
   (64277, (1348, [1339])); (64278, (1358, [1350])); (64279, (1348, [1341]))
  ].

Fixpoint run_image (c : N) (t : list (N * N * N * N)) : option N :=
  match t with
  | [] => None
  | (lo, hi, step, img) :: r =>
      if ((lo <=? c) && (c <=? hi) && ((c - lo) mod step =? 0))
      then Some (img + (c - lo))
      else run_image c r
  end.

Fixpoint special_image (c : N) (t : list (N * (N * list N)))
    : option (N * list N) :=
  match t with
  | [] => None
  | (k, img) :: r => if (k =? c) then Some img else special_image c r
  end.

(** The UTF-8 encoding of a character. *)
Definition utf8 (c : N) : string :=
  let byte n := Ascii.ascii_of_N n in
  if (c <? 128) then String (byte c) ""
  else if (c <? 2048) then
    String (byte (192 + c / 64)) (String (byte (128 + c mod 64)) "")
  else if (c <? 65536) then
    String (byte (224 + c / 4096))
      (String (byte (128 + c / 64 mod 64)) (String (byte (128 + c mod 64)) ""))
  else
    String (byte (240 + c / 262144))
      (String (byte (128 + c / 4096 mod 64))
         (String (byte (128 + c / 64 mod 64))
            (String (byte (128 + c mod 64)) ""))).

(** The upper-case image of the character [c], whose encoding is
    [original]. *)
Definition upper_char (c : N) (original : string) : string :=
  match run_image c upper_runs with
  | Some u => utf8 u
  | None =>
      match special_image c upper_specials with
      | Some (u, rest) => utf8 u +:+ foldr (fun x s => utf8 x +:+ s) "" rest
      | None => original
      end
  end.

(** A continuation byte of UTF-8. *)
Definition continuation (b : N) : bool := ((128 <=? b) && (b <? 192)).

(** [str.upper]: the text is read character by character (one to four
    bytes) and every character is replaced by its image; a byte that starts
    no character, which no [str] contains, is kept. *)
Fixpoint upper (s : string) : string :=
  match s with
  | EmptyString => EmptyString
  | String a0 r0 =>
      let b0 := Ascii.N_of_ascii a0 in
      if (b0 <? 128) then upper_char b0 (String a0 "") +:+ upper r0
      else
        match r0 with
        | String a1 r1 =>
            let b1 := Ascii.N_of_ascii a1 in
            if ((192 <=? b0) && (b0 <? 224)) && continuation b1
            then upper_char ((b0 - 192) * 64 + (b1 - 128))
                            (String a0 (String a1 ""))
                 +:+ upper r1
            else
              match r1 with
              | String a2 r2 =>
                  let b2 := Ascii.N_of_ascii a2 in
                  if ((224 <=? b0) && (b0 <? 240)) && continuation b1
                     && continuation b2
                  then upper_char ((b0 - 224) * 4096 + (b1 - 128) * 64
                                   + (b2 - 128))
                                  (String a0 (String a1 (String a2 "")))
                       +:+ upper r2
                  else
                    match r2 with
                    | String a3 r3 =>
                        let b3 := Ascii.N_of_ascii a3 in
                        if ((240 <=? b0) && (b0 <? 248)) && continuation b1
                           && continuation b2 && continuation b3
                        then upper_char ((b0 - 240) * 262144 + (b1 - 128) * 4096
                                         + (b2 - 128) * 64 + (b3 - 128))
                                        (String a0 (String a1 (String a2
                                           (String a3 ""))))
                             +:+ upper r3
                        else String a0 (upper r0)
                    | EmptyString => String a0 (upper r0)
                    end
              | EmptyString => String a0 (upper r0)
              end
        | EmptyString => String a0 (upper r0)
        end
  end.

End Text.

(** ** The language runtime *)

(** What the program takes from the C library and the interpreter and that
    is not computed here. [None] stands for a raised exception
    ([ValueError], [OverflowError]). *)
Class PyRuntime : Type := {
  m_sin : float -> option float;
  m_cos : float -> option float;
  m_atan2 : float -> float -> option float;
  float_pow : float -> float -> option float;
  float_of_str : string -> option float;
  float_repr : float -> string
}.

(** Result of a computation that may raise. *)
Inductive outcome (A : Type) : Type :=
| Ok (a : A)
| Raise.
Arguments Ok {A} a.
Arguments Raise {A}.

(** ** Data model *)

Record Vehicle : Type := mkVehicle {
  v_id : string;
  v_name : string;
  v_type : string;
  v_latitude : value;           (* vehicle['location']['latitude'] *)
  v_longitude : value;          (* vehicle['location']['longitude'] *)
  v_services : option (list string);
  v_eta : string;
  v_available : bool;
  v_status : string;
  v_distance : option float
}.

Definition set_eta (s : string) (v : Vehicle) : Vehicle :=
  mkVehicle (v_id v) (v_name v) (v_type v) (v_latitude v) (v_longitude v)
            (v_services v) s (v_available v) (v_status v) (v_distance v).

Definition set_available (b : bool) (v : Vehicle) : Vehicle :=
  mkVehicle (v_id v) (v_name v) (v_type v) (v_latitude v) (v_longitude v)
            (v_services v) (v_eta v) b (v_status v) (v_distance v).

Definition set_status (s : string) (v : Vehicle) : Vehicle :=
  mkVehicle (v_id v) (v_name v) (v_type v) (v_latitude v) (v_longitude v)
            (v_services v) (v_eta v) (v_available v) s (v_distance v).

Definition set_distance (d : float) (v : Vehicle) : Vehicle :=
  mkVehicle (v_id v) (v_name v) (v_type v) (v_latitude v) (v_longitude v)
            (v_services v) (v_eta v) (v_available v) (v_status v) (Some d).

(** An entry of the seeded [phone_locations] table. *)
Record PhoneEntry : Type := mkPhoneEntry {
  pe_lat : float;
  pe_lng : float;
  pe_address : string
}.

(** The dictionary built by [get_location_from_phone]. *)
Record LocationData : Type := mkLocationData {
  ld_location : Dict;
  ld_address : string
}.

(** An element of the [etas] list of [calculate_etas]. *)
Record EtaSummary : Type := mkEtaSummary {
  vehicleId : string;
  vehicleName : string;
  vehicleType : string;
  etaMinutes : num;
  es_status : string;
  es_available : bool;
  es_services : list string
}.

(** The mutable attributes of [RealTimeProcessor]. *)
Record Processor : Type := mkProcessor {
  vehicles : list Vehicle;
  vehicle_locations : gmap string Dict;
  phone_to_location : gmap string Dict
}.

Definition with_vehicles (vs : list Vehicle) (p : Processor) : Processor :=
  mkProcessor vs (vehicle_locations p) (phone_to_location p).

(** The sample table set up by [__init__]; it is never written. *)
Definition phone_locations : gmap string PhoneEntry :=
  <["9876543210" := mkPhoneEntry 13.3409 77.1025 "Tumkur City Center"]>
  (<["9876543211" := mkPhoneEntry 13.3415 77.1030 "Tumkur Bus Stand"]>
  (<["9876543212" := mkPhoneEntry 13.3420 77.1035 "Tumkur Railway Station"]>
  (<["9876543213" := mkPhoneEntry 13.3425 77.1040 "Tumkur Medical College"]>
  (<["9876543214" := mkPhoneEntry 13.3430 77.1045 "Tumkur Police Station"]>
   ∅)))).

(** Responses of the handlers. [RException] is the 500 answer produced when
    an exception is raised inside a handler. *)
Inductive response : Type :=
| RVehicles (l : list Vehicle)
| RLocation (d : LocationData)
| REtas (l : list EtaSummary)
| RSuccess
| RDispatched (eta : num) (v : Vehicle)
| RError (code : nat) (message : string)
| RException.

(** ** [RealTimeProcessor] *)

(** [load_vehicles]: [data] is the content of the ['vehicles'] key of the
    catalog file, [None] when reading or parsing it raised. *)
Definition load_vehicles (data : option (list Vehicle)) : list Vehicle :=
  match data with
  | Some l =>
      map (fun vehicle =>
             set_status "AVAILABLE" (set_available true (set_eta "N/A" vehicle))) l
  | None => []
  end.

(** [__init__] *)
Definition init (data : option (list Vehicle)) : Processor :=
  mkProcessor (load_vehicles data) ∅ ∅.

Definition update_vehicle_location (vehicle_id : string) (location : Dict)
    (p : Processor) : Processor :=
  mkProcessor (vehicles p) (<[vehicle_id := location]> (vehicle_locations p))
              (phone_to_location p).

Definition update_phone_location (phone : string) (location : Dict)
    (p : Processor) : Processor :=
  mkProcessor (vehicles p) (vehicle_locations p)
              (<[phone := location]> (phone_to_location p)).

Definition get_vehicle_location (vehicle_id : string) (p : Processor) : option Dict :=
  vehicle_locations p !! vehicle_id.

Definition get_phone_location (phone : string) (p : Processor) : option Dict :=
  phone_to_location p !! phone.

Definition get_location_from_phone (phone_number : string) : option LocationData :=
  match phone_locations !! phone_number with
  | Some location =>
      Some (mkLocationData
              {[ "lat" := VNum (NFloat (pe_lat location));
                 "lng" := VNum (NFloat (pe_lng location)) ]}
              (pe_address location))
  | None => None
  end.

(** Lines 90-96 of [calculate_eta]: the travel time at 60 km/h in minutes,
    rounded to one decimal, and at least 1 for a positive distance. *)
Definition eta_minutes_of (distance : float) : num :=
  let time_hours := (distance / 60)%float in
  let eta_minutes := round1 (time_hours * 60)%float in
  if PrimFloat.ltb eta_minutes 1 && PrimFloat.ltb 0 distance
  then NInt 1 else NFloat eta_minutes.

(** [v['location']['latitude'] == vehicle_lat and
    v['location']['longitude'] == vehicle_lng] *)
Definition same_place (vehicle_lat vehicle_lng : value) (v : Vehicle) : Prop :=
  py_eq (v_latitude v) vehicle_lat = true ∧ py_eq (v_longitude v) vehicle_lng = true.

#[global] Instance same_place_dec lat lng v : Decision (same_place lat lng v) :=
  and_dec (decide (py_eq (v_latitude v) lat = true))
          (decide (py_eq (v_longitude v) lng = true)).

(** Lines 99-101 of [calculate_eta]: the rounded distance is stored in the
    first vehicle of the registry whose coordinates compare equal to the
    ones supplied, if there is one. *)
Definition store_distance (vs : list Vehicle) (vehicle_lat vehicle_lng : value)
    (distance : float) : list Vehicle :=
  match list_find (same_place vehicle_lat vehicle_lng) vs with
  | Some (i, _) => alter (set_distance (round1 distance)) i vs
  | None => vs
  end.

(** The four coordinate components read by [calculate_eta]. *)
Definition components (vl el : Dict) : list value :=
  [get2 vl "latitude" "lat"; get2 vl "longitude" "lng";
   get2 el "latitude" "lat"; get2 el "longitude" "lng"].

(** A vehicle without its [distance] key: what a write of [distance] leaves
    untouched. *)
Definition erase_distance (v : Vehicle) : Vehicle :=
  mkVehicle (v_id v) (v_name v) (v_type v) (v_latitude v) (v_longitude v)
            (v_services v) (v_eta v) (v_available v) (v_status v) None.

(** A vehicle without its [eta] and [distance] keys: what the ETA writes
    leave untouched. *)
Definition frame (v : Vehicle) : Vehicle :=
  mkVehicle (v_id v) (v_name v) (v_type v) (v_latitude v) (v_longitude v)
            (v_services v) "" (v_available v) (v_status v) None.

Section Program.
Context {RT : PyRuntime}.

(** [float(v)] *)
Definition py_float (v : value) : option float :=
  match v with
  | VNone => None
  | VNum (NInt z) => float_of_Z z
  | VNum (NFloat f) => Some f
  | VStr s => float_of_str s
  end.

(** Lines 77-87 of [calculate_eta]: the haversine distance in kilometres. *)
Definition haversine_km (vehicle_lat vehicle_lng emergency_lat emergency_lng : value)
    : option float :=
  f1 ← py_float vehicle_lat;
  f2 ← py_float vehicle_lng;
  f3 ← py_float emergency_lat;
  f4 ← py_float emergency_lng;
  let lat1 := radians f1 in
  let lon1 := radians f2 in
  let lat2 := radians f3 in
  let lon2 := radians f4 in
  let dlat := (lat2 - lat1)%float in
  let dlon := (lon2 - lon1)%float in
  s1 ← m_sin (dlat / 2)%float;
  p1 ← float_pow s1 2;
  c1 ← m_cos lat1;
  c2 ← m_cos lat2;
  s2 ← m_sin (dlon / 2)%float;
  p2 ← float_pow s2 2;
  let a := (p1 + c1 * c2 * p2)%float in
  q1 ← m_sqrt a;
  q2 ← m_sqrt (1 - a)%float;
  t ← m_atan2 q1 q2;
  let c := (2 * t)%float in
  Some (6371 * c)%float.

(** [calculate_eta]: the registry after the call and the value returned. *)
Definition calculate_eta (vs : list Vehicle)
    (vehicle_location emergency_location : option Dict)
    : list Vehicle * outcome num :=
  match vehicle_location, emergency_location with
  | Some vl, Some el =>
      if negb (dict_truthy vehicle_location) || negb (dict_truthy emergency_location)
      then (vs, Ok (NInt 0))
      else
        let vehicle_lat := get2 vl "latitude" "lat" in
        let vehicle_lng := get2 vl "longitude" "lng" in
        let emergency_lat := get2 el "latitude" "lat" in
        let emergency_lng := get2 el "longitude" "lng" in
        if negb (forallb truthy
                         [vehicle_lat; vehicle_lng; emergency_lat; emergency_lng])
        then (vs, Ok (NInt 0))
        else
          match haversine_km vehicle_lat vehicle_lng emergency_lat emergency_lng with
          | None => (vs, Raise)
          | Some distance =>
              (store_distance vs vehicle_lat vehicle_lng distance,
               Ok (eta_minutes_of distance))
          end
  | _, _ => (vs, Ok (NInt 0))
  end.

(** The value returned by [calculate_eta]; it does not depend on the
    registry. *)
Definition eta_of (vehicle_location emergency_location : option Dict) : outcome num :=
  (calculate_eta [] vehicle_location emergency_location).2.

(** [f"{eta}"] *)
Definition num_str (n : num) : string :=
  match n with
  | NInt z => pretty z
  | NFloat f => float_repr f
  end.

(** [f"{eta} mins" if eta > 0 else "N/A"] *)
Definition eta_label (eta : num) : string :=
  if num_gt0 eta then num_str eta +:+ " mins" else "N/A".

(** The argument built by every caller of [calculate_eta] from a vehicle. *)
Definition location_of (vehicle : Vehicle) : Dict :=
  {[ "latitude" := v_latitude vehicle; "longitude" := v_longitude vehicle ]}.

(** The dictionary appended to [etas] by [calculate_etas]. *)
Definition summary (vehicle : Vehicle) (eta : num) : EtaSummary :=
  mkEtaSummary (v_id vehicle) (v_name vehicle) (v_type vehicle) eta
               (v_status vehicle) (v_available vehicle)
               (default [] (v_services vehicle)).

(** The number behind an outcome ([0] for an exception; used in statements
    only where no exception occurs). *)
Definition eta_num (o : outcome num) : num :=
  match o with
  | Ok n => n
  | Raise => NInt 0
  end.

(** The ETA of a vehicle towards [location] can be computed: no conversion
    and no library call raises. *)
Definition computable (location : Dict) (v : Vehicle) : Prop :=
  eta_of (Some (location_of v)) (Some location) <> Raise.

(** A vehicle with its [eta] key rewritten for [location]. *)
Definition refresh (location : Dict) (v : Vehicle) : Vehicle :=
  set_eta (eta_label (eta_num (eta_of (Some (location_of v)) (Some location)))) v.



(** ** Request handlers *)

(** [GET /api/vehicles]; [type_arg] is the [type] query parameter. *)
Definition get_vehicles (type_arg : option string) (p : Processor)
    : Processor * response :=
  let service_type := upper (default "" type_arg) in
  if negb (String.eqb service_type "")
  then (p, RVehicles (filter (λ vehicle, v_type vehicle = service_type
                                         ∧ v_available vehicle = true)
                             (vehicles p)))
  else (p, RVehicles (vehicles p)).

(** The loop of [get_location] over the positions [idxs] of the registry. *)
Fixpoint get_location_loop (location : Dict) (idxs : list nat) (vs : list Vehicle)
    : list Vehicle * outcome unit :=
  match idxs with
  | [] => (vs, Ok tt)
  | i :: rest =>
      match vs !! i with
      | None => get_location_loop location rest vs
      | Some vehicle =>
          match calculate_eta vs (Some (location_of vehicle)) (Some location) with
          | (vs', Ok eta) =>
              get_location_loop location rest (alter (set_eta (eta_label eta)) i vs')
          | (vs', Raise) => (vs', Raise)
          end
      end
  end.

(** [GET /api/location/<phone_number>] *)
Definition get_location (phone_number : string) (p : Processor)
    : Processor * response :=
  match get_location_from_phone phone_number with
  | Some location_data =>
      match get_location_loop (ld_location location_data)
                              (seq 0 (length (vehicles p))) (vehicles p) with
      | (vs, Ok _) => (with_vehicles vs p, RLocation location_data)
      | (vs, Raise) => (with_vehicles vs p, RException)
      end
  | None => (p, RError 404 "Location not found")
  end.

(** The loop of [calculate_etas]; [etas] is the list built so far. *)
Fixpoint calculate_etas_loop (emergency_location : Dict) (vehicle_ids : list string)
    (idxs : list nat) (vs : list Vehicle) (etas : list EtaSummary)
    : list Vehicle * outcome (list EtaSummary) :=
  match idxs with
  | [] => (vs, Ok etas)
  | i :: rest =>
      match vs !! i with
      | None => calculate_etas_loop emergency_location vehicle_ids rest vs etas
      | Some vehicle =>
          if bool_decide (v_id vehicle ∈ vehicle_ids)
          then
            match calculate_eta vs (Some (location_of vehicle))
                                (Some emergency_location) with
            | (vs1, Ok eta) =>
                let vs2 := alter (set_eta (eta_label eta)) i vs1 in
                let vehicle' := default vehicle (vs2 !! i) in
                calculate_etas_loop emergency_location vehicle_ids rest vs2
                                    (etas ++ [summary vehicle' eta])
            | (vs1, Raise) => (vs1, Raise)
            end
          else calculate_etas_loop emergency_location vehicle_ids rest vs etas
      end
  end.

(** [POST /api/calculate-etas]; the arguments are the ['location'] and
    ['vehicleIds'] entries of the request body. *)
Definition calculate_etas (emergency_location : option Dict)
    (vehicle_ids : list string) (p : Processor) : Processor * response :=
  match emergency_location with
  | Some el =>
      if negb (dict_truthy emergency_location) || bool_decide (vehicle_ids = [])
      then (p, RError 400 "Missing location or vehicle IDs")
      else
        match calculate_etas_loop el vehicle_ids
                                  (seq 0 (length (vehicles p))) (vehicles p) [] with
        | (vs, Ok etas) => (with_vehicles vs p, REtas etas)
        | (vs, Raise) => (with_vehicles vs p, RException)
        end
  | None => (p, RError 400 "Missing location or vehicle IDs")
  end.

(** [POST /api/location] *)
Definition update_location (phone : option string) (location : option Dict)
    (p : Processor) : Processor * response :=
  match phone, location with
  | Some ph, Some loc =>
      if negb (String.eqb ph "") && dict_truthy location
      then (update_phone_location ph loc p, RSuccess)
      else (p, RError 400 "Invalid data")
  | _, _ => (p, RError 400 "Invalid data")
  end.

(** [POST /api/dispatch] *)
Definition dispatch_vehicle (vehicle_id phone : option string) (p : Processor)
    : Processor * response :=
  match vehicle_id, phone with
  | Some vid, Some ph =>
      if String.eqb vid "" || String.eqb ph ""
      then (p, RError 400 "Missing vehicle_id or phone")
      else
        let emergency_location := get_phone_location ph p in
        if negb (dict_truthy emergency_location)
        then (p, RError 404 "Emergency location not found")
        else
          match list_find (λ v, v_id v = vid) (vehicles p) with
          | None => (p, RError 404 "Vehicle not found")
          | Some (i, vehicle) =>
              match calculate_eta (vehicles p) (Some (location_of vehicle))
                                  emergency_location with
              | (vs1, Raise) => (with_vehicles vs1 p, RException)
              | (vs1, Ok eta) =>
                  let vs2 := alter (set_available false) i vs1 in
                  let vs3 := alter (set_status "EN_ROUTE") i vs2 in
                  let vs4 := alter (set_eta (num_str eta +:+ " mins")) i vs3 in
                  (with_vehicles vs4 p,
                   RDispatched eta (default vehicle (vs4 !! i)))
              end
          end
  | _, _ => (p, RError 400 "Missing vehicle_id or phone")
  end.

(** ** Sequences of requests *)

Inductive request : Type :=
| GetVehicles (type_arg : option string)
| GetLocation (phone_number : string)
| CalculateEtas (location : option Dict) (vehicle_ids : list string)
| UpdateLocation (phone : option string) (location : option Dict)
| Dispatch (vehicle_id phone : option string).

Definition handle (r : request) (p : Processor) : Processor * response :=
  match r with
  | GetVehicles t => get_vehicles t p
  | GetLocation n => get_location n p
  | CalculateEtas l ids => calculate_etas l ids p
  | UpdateLocation ph l => update_location ph l p
  | Dispatch vid ph => dispatch_vehicle vid ph p
  end.

(** The state after serving the requests [rs] one after the other. *)
Definition run (rs : list request) (p : Processor) : Processor :=
  foldl (fun q r => (handle r q).1) p rs.

End Program.

(** ** A runtime for the examples

    Truncated power series stand in for the C library, which is enough for
    the short distances of the examples; floats that are multiples of one
    tenth are printed with one decimal. *)
Module Sample.

Definition sin_series (x : float) : float :=
  let x2 := (x * x)%float in
  (x * (1 - x2 / 6 * (1 - x2 / 20 * (1 - x2 / 42))))%float.

Definition cos_series (x : float) : float :=
  let x2 := (x * x)%float in
  (1 - x2 / 2 * (1 - x2 / 12 * (1 - x2 / 30 * (1 - x2 / 56 * (1 - x2 / 90)))))%float.

Definition atan_series (t : float) : float :=
  let t2 := (t * t)%float in
  (t * (1 - t2 * (1 / 3 - t2 * (1 / 5 - t2 / 7))))%float.

Definition tenths_repr (f : float) : string :=
  match Prim2SF (f * 10)%float with
  | S754_finite s m e =>
      let n := if (0 <=? e)%Z then (Z.pos m * 2 ^ e)%Z else (Z.pos m / 2 ^ (- e))%Z in
      (if s then "-" else "") +:+ pretty (n / 10)%Z +:+ "." +:+ pretty (n mod 10)%Z
  | _ => "0.0"
  end.

#[export] Instance runtime : PyRuntime := {|
  m_sin x := Some (sin_series x);
  m_cos x := Some (cos_series x);
  m_atan2 y x := Some (atan_series (y / x)%float);
  float_pow x y := Some (x * x)%float;
  float_of_str _ := None;
  float_repr := tenths_repr
|}.

Definition unit1 : Vehicle :=
  mkVehicle "V1" "Ambulance 1" "AMBULANCE"
            (VNum (NFloat 13.3409)) (VNum (NFloat 77.1025))
            (Some ["ICU"; "Oxygen"]) "" false "" None.

Definition unit2 : Vehicle :=
  mkVehicle "V2" "Fire Engine 1" "FIRE"
            (VNum (NFloat 13.3500)) (VNum (NFloat 77.1200))
            (Some ["Ladder"]) "" false "" None.

Definition unit3 : Vehicle :=
  mkVehicle "V3" "Ambulance 2" "AMBULANCE"
            (VNum (NFloat 13.3409)) (VNum (NFloat 77.1025))
            None "" false "" None.

Definition target : Dict :=
  {[ "lat" := VNum (NFloat 13.3415); "lng" := VNum (NFloat 77.1030) ]}.

Definition fresh : Processor := init (Some [unit1; unit2; unit3]).

Definition unit4 : Vehicle :=
  mkVehicle "V4" "Ambulance 4" "Ambulance"
            (VNum (NFloat 13.3420)) (VNum (NFloat 77.1035))
            None "" false "" None.

(** A catalog entry whose latitude is not a number. *)
Definition unit5 : Vehicle :=
  mkVehicle "V5" "Police 5" "POLICE"
            (VStr "north") (VNum (NFloat 77.1035))
            None "" false "" None.


(** A catalog entry with such a latitude. *)
Definition unit6 : Vehicle :=
  mkVehicle "V6" "Rescue 6" "RESCUE"
            (VNum (NInt (10 ^ 400))) (VNum (NFloat 77.1035))
            None "" false "" None.

(** A caller on the equator. *)
Definition equator_call : Dict :=
  {[ "lat" := VNum (NInt 0); "lng" := VNum (NFloat 77.1025) ]}.

End Sample.

(** ** Notions used in the statements *)

(** A numeric zero: the integer [0] or a float equal to [0.0]. *)
Definition zero_value (v : value) : Prop :=
  exists n, v = VNum n /\ num_is0 n = true.

(** Sample data for the concrete instances. *)

Definition equator_location : Dict :=
  {[ "latitude" := VNum (NFloat 0); "longitude" := VNum (NFloat 77.1025) ]}.

Definition sample_distance : float :=
  Eval vm_compute in
    default 0%float
      (haversine_km (RT := Sample.runtime)
         (VNum (NFloat 13.3409)) (VNum (NFloat 77.1025))
         (VNum (NFloat 13.3415)) (VNum (NFloat 77.1030))).

(** [available] mirrors [status]. *)
Definition consistent (v : Vehicle) : Prop :=
  v_available v = true <-> v_status v = "AVAILABLE".

(** ** Notions used in the statements about whole sessions *)

(** The keys of a vehicle that come from the catalog. *)
Definition catalog_part (v : Vehicle) : Vehicle :=
  mkVehicle (v_id v) (v_name v) (v_type v) (v_latitude v) (v_longitude v)
            (v_services v) "" false "" None.

Definition with_vehicle_locations (m : gmap string Dict) (p : Processor)
    : Processor :=
  mkProcessor (vehicles p) m (phone_to_location p).

(** The three writes of [dispatch_vehicle] on the vehicle found. *)
Definition dispatched (eta_text : string) (v : Vehicle) : Vehicle :=
  set_eta eta_text (set_status "EN_ROUTE" (set_available false v)).

(** Two vehicles with the same catalog data. *)
Definition same_catalog_part (v w : Vehicle) : Prop :=
  catalog_part v = catalog_part w.

(** The state of a vehicle that has not been dispatched. *)
Definition still_available (v : Vehicle) : Prop :=
  v_available v = true /\ v_status v = "AVAILABLE".

(** What a request does to the reported phone locations. *)
Definition report (r : request) (m : gmap string Dict) : gmap string Dict :=
  match r with
  | UpdateLocation (Some ph) (Some loc) =>
      if negb (String.eqb ph "") && dict_truthy (Some loc) then <[ph := loc]> m else m
  | _ => m
  end.

(** The request is a location report for the phone [ph]. *)
Definition reports_for (ph : string) (r : request) : Prop :=
  match r with
  | UpdateLocation (Some ph') _ => ph' = ph
  | _ => False
  end.

Section Traces.
Context {RT : PyRuntime}.

(** The answers to the requests [rs] served one after the other. *)
Fixpoint responses (rs : list request) (p : Processor) : list response :=
  match rs with
  | [] => []
  | r :: rest => (handle r p).2 :: responses rest (handle r p).1
  end.

(** The vehicle as [calculate_etas] leaves it: its [eta] rewritten when its
    id is requested. *)
Definition refresh_requested (location : Dict) (ids : list string) (v : Vehicle)
    : Vehicle :=
  if bool_decide (v_id v ∈ ids) then refresh location v else v.

End Traces.


(** The sample system after a location report, and after the dispatch of
    the third vehicle to the reporting phone. *)
Definition after_report : Processor :=
  update_phone_location "9876543210" Sample.target Sample.fresh.

Definition after_dispatch : Processor :=
  (dispatch_vehicle (RT := Sample.runtime) (Some "V3") (Some "9876543210")
                    after_report).1.

Definition dispatched_unit : Vehicle :=
  dispatched "1 mins"
    (set_status "AVAILABLE" (set_available true (set_eta "N/A" Sample.unit3))).

(** * Properties *)

(** ** The numeric model on known values *)

(** [round(x, 1)] as the interpreter computes it: the exact binary value
    decides ([0.15] and [0.35] are below the tie, [0.25] and [0.75] are
    ties and go to the even digit), and the sign of zero is kept. *)
Example round1_values :
  map round1 [0.05; 0.15; 0.25; 0.35; 0.75; 1.45; 0.95; 12.35; 20015.086796020572;
              -0.04; -2.5; 0; infinity]%float
  = [0.1; 0.1; 0.2; 0.3; 0.8; 1.4; 0.9; 12.3; 20015.1;
     -0; -2.5; 0; infinity]%float.
Proof. vm_compute. reflexivity. Qed.

Example float_of_Z_values :
  map float_of_Z [13; -5; 9007199254740993; 10 ^ 400]%Z
  = [Some 13%float; Some (-5)%float; Some 9007199254740992%float; None].
Proof. vm_compute. reflexivity. Qed.

Example py_eq_values :
  map (fun '(x, y) => py_eq x y)
      [(VNum (NInt 13), VNum (NFloat 13)); (VNum (NFloat 13.5), VNum (NInt 13));
       (VNum (NFloat nan), VNum (NFloat nan)); (VNum (NFloat 0), VNum (NFloat (-0)));
       (VStr "13", VNum (NInt 13)); (VNone, VNone)]
  = [true; false; false; true; false; true].
Proof. vm_compute. reflexivity. Qed.

Example eta_minutes_of_values :
  map eta_minutes_of [0.5; 0.0859; 0.96; 1; 2.147; 0; nan]%float
  = [NInt 1; NInt 1; NFloat 1; NFloat 1; NFloat 2.1; NFloat 0; NFloat nan].
Proof. vm_compute. reflexivity. Qed.

(** ** Floating point facts *)

Lemma eqb_zero_cases (d : float) :
  PrimFloat.eqb d 0 = true -> d = 0%float \/ d = (-0)%float.
Proof.
  intros H. rewrite FloatAxioms.eqb_spec in H.
  rewrite <- (FloatAxioms.SF2Prim_Prim2SF d).
  destruct (Prim2SF d) as [[]| | |s m e]; cbn in H; try discriminate.
  - right. reflexivity.
  - left. reflexivity.
  - destruct s; discriminate.
  - destruct s; discriminate.
Qed.

Lemma eta_minutes_of_zero (d : float) :
  PrimFloat.eqb d 0 = true -> eta_minutes_of d = NFloat d.
Proof.
  intros [-> | ->]%eqb_zero_cases; vm_compute; reflexivity.
Qed.

(** ** Dictionaries *)

Lemma get2_truthy_nonempty (d : Dict) (k1 k2 : string) :
  truthy (get2 d k1 k2) = true -> dict_truthy (Some d) = true.
Proof.
  unfold dict_truthy, get2. intros H.
  destruct (size d =? 0)%nat eqn:E; [|reflexivity].
  apply Nat.eqb_eq, map_size_empty_iff in E. subst d.
  rewrite !lookup_empty in H. discriminate.
Qed.

Lemma components_truthy_nonempty (vl el : Dict) :
  forallb truthy (components vl el) = true ->
  dict_truthy (Some vl) = true /\ dict_truthy (Some el) = true.
Proof.
  cbn [components forallb]. rewrite !andb_true_iff.
  intros (H1 & _ & H3 & _). eauto using get2_truthy_nonempty.
Qed.

(** ** The registry under [store_distance] *)

Lemma erase_set_distance (d : float) (v : Vehicle) :
  erase_distance (set_distance d v) = erase_distance v.
Proof. reflexivity. Qed.

Lemma store_distance_erase (vs : list Vehicle) (a b : value) (d : float) :
  erase_distance <$> store_distance vs a b d = erase_distance <$> vs.
Proof.
  unfold store_distance. destruct (list_find _ vs) as [[i v]|]; [|reflexivity].
  rewrite (list_fmap_alter erase_distance _ id).
  - apply list_alter_id. reflexivity.
  - apply Forall_forall. intros; apply erase_set_distance.
Qed.

Section Calculate.
Context {RT : PyRuntime}.

(** ** The three ways out of [calculate_eta] *)

Lemma calculate_eta_zero (vs : list Vehicle) (vl el : Dict) :
  forallb truthy (components vl el) = false ->
  calculate_eta vs (Some vl) (Some el) = (vs, Ok (NInt 0)).
Proof.
  intros H. unfold calculate_eta.
  destruct (negb (dict_truthy (Some vl)) || negb (dict_truthy (Some el)));
    [reflexivity|].
  fold (components vl el). rewrite H. reflexivity.
Qed.

Lemma calculate_eta_computed (vs : list Vehicle) (vl el : Dict) (d : float) :
  forallb truthy (components vl el) = true ->
  haversine_km (get2 vl "latitude" "lat") (get2 vl "longitude" "lng")
               (get2 el "latitude" "lat") (get2 el "longitude" "lng") = Some d ->
  calculate_eta vs (Some vl) (Some el)
  = (store_distance vs (get2 vl "latitude" "lat") (get2 vl "longitude" "lng") d,
     Ok (eta_minutes_of d)).
Proof.
  intros H Hd. unfold calculate_eta.
  destruct (components_truthy_nonempty _ _ H) as [-> ->].
  fold (components vl el). rewrite H, Hd. reflexivity.
Qed.

Lemma calculate_eta_raise (vs : list Vehicle) (vl el : Dict) :
  forallb truthy (components vl el) = true ->
  haversine_km (get2 vl "latitude" "lat") (get2 vl "longitude" "lng")
               (get2 el "latitude" "lat") (get2 el "longitude" "lng") = None ->
  calculate_eta vs (Some vl) (Some el) = (vs, Raise).
Proof.
  intros H Hd. unfold calculate_eta.
  destruct (components_truthy_nonempty _ _ H) as [-> ->].
  fold (components vl el). rewrite H, Hd. reflexivity.
Qed.

(** The returned value does not depend on the registry, and the registry
    changes in its [distance] keys only. *)
Lemma calculate_eta_snd (vs : list Vehicle) (vl el : option Dict) :
  (calculate_eta vs vl el).2 = eta_of vl el.
Proof.
  unfold eta_of, calculate_eta.
  destruct vl as [vl|], el as [el|]; try reflexivity.
  repeat match goal with |- context [if ?c then _ else _] => destruct c end;
    try reflexivity.
  destruct (haversine_km _ _ _ _); reflexivity.
Qed.

Lemma calculate_eta_erase (vs : list Vehicle) (vl el : option Dict) :
  erase_distance <$> (calculate_eta vs vl el).1 = erase_distance <$> vs.
Proof.
  unfold calculate_eta.
  destruct vl as [vl|], el as [el|]; try reflexivity.
  repeat match goal with |- context [if ?c then _ else _] => destruct c end;
    try reflexivity.
  destruct (haversine_km _ _ _ _); [apply store_distance_erase | reflexivity].
Qed.

End Calculate.

Section Estimation.
Context {RT : PyRuntime}.

(** ** Zero and absent coordinates *)

Lemma zero_value_falsy (v : value) : zero_value v \/ v = VNone -> truthy v = false.
Proof.
  intros [(n & -> & H) | ->]; [|reflexivity].
  destruct n; cbn in *; rewrite H; reflexivity.
Qed.

Lemma forallb_falsy (c : value) (l : list value) :
  c ∈ l -> truthy c = false -> forallb truthy l = false.
Proof.
  induction 1 as [|x y l _ IH]; cbn; intros H.
  - rewrite H. reflexivity.
  - rewrite IH by assumption. apply andb_false_r.
Qed.

(** C3: whenever one of the four coordinate components read by
    [calculate_eta] is a numeric zero (an integer [0], or a float [0.0] or
    [-0.0]: a point of the equator or of the prime meridian) or is absent,
    the function returns the integer [0] and leaves the registry as it was,
    whatever the other components are; the same holds when a whole location
    is absent. *)
Theorem zero_coordinate_gives_zero_eta
    (vs : list Vehicle) (vl el : Dict) (c : value) :
  c ∈ components vl el ->
  zero_value c \/ c = VNone ->
  calculate_eta vs (Some vl) (Some el) = (vs, Ok (NInt 0))
  /\ calculate_eta vs None (Some el) = (vs, Ok (NInt 0))
  /\ calculate_eta vs (Some vl) None = (vs, Ok (NInt 0)).
Proof.
  intros Hin Hc. split; [|split; reflexivity].
  apply calculate_eta_zero.
  eapply forallb_falsy; eauto using zero_value_falsy.
Qed.

(** ** The ETA formula *)



(** ** Where the distance is stored *)

(** C10: when an ETA is computed (all components non-zero, distance [d]),
    the registry keeps its length, and either there is a first vehicle whose
    [latitude] and [longitude] compare equal to the coordinates supplied
    (it need not be the vehicle of the request): then its [distance] key is
    [round(d, 1)] after the call, its other keys are unchanged and every
    other vehicle is unchanged; or no vehicle has such coordinates: then
    the registry is unchanged. *)
Theorem distance_goes_to_first_coordinate_match
    (vs : list Vehicle) (vl el : Dict) (d : float) :
  forallb truthy (components vl el) = true ->
  haversine_km (get2 vl "latitude" "lat") (get2 vl "longitude" "lng")
               (get2 el "latitude" "lat") (get2 el "longitude" "lng") = Some d ->
  let lat := get2 vl "latitude" "lat" in
  let lng := get2 vl "longitude" "lng" in
  let matches v :=
    py_eq (v_latitude v) lat = true /\ py_eq (v_longitude v) lng = true in
  let vs' := (calculate_eta vs (Some vl) (Some el)).1 in
  length vs' = length vs
  /\ ((exists i v v',
          vs !! i = Some v /\ matches v
          /\ (forall j y, vs !! j = Some y -> (j < i)%nat -> ~ matches y)
          /\ vs' !! i = Some v'
          /\ v_distance v' = Some (round1 d)
          /\ v_id v' = v_id v /\ v_name v' = v_name v /\ v_type v' = v_type v
          /\ v_latitude v' = v_latitude v /\ v_longitude v' = v_longitude v
          /\ v_services v' = v_services v /\ v_eta v' = v_eta v
          /\ v_available v' = v_available v /\ v_status v' = v_status v
          /\ (forall j, j <> i -> vs' !! j = vs !! j))
      \/ (Forall (fun v => ~ matches v) vs /\ vs' = vs)).
Proof.
  intros H Hd lat lng matches vs'.
  subst vs'. rewrite (calculate_eta_computed vs vl el d H Hd). cbn [fst].
  fold lat lng. unfold store_distance.
  destruct (list_find (same_place lat lng) vs) as [[i v]|] eqn:E.
  - split; [apply length_alter|].
    apply list_find_Some in E as (Hi & Hv & Hfirst).
    left. exists i, v, (set_distance (round1 d) v).
    split; [exact Hi|]. split; [exact Hv|]. split; [exact Hfirst|].
    split; [rewrite list_lookup_alter_eq, Hi; reflexivity|].
    repeat (split; [reflexivity|]).
    intros j Hj. apply list_lookup_alter_ne. auto.
  - split; [reflexivity|].
    apply list_find_None in E. right. split; [exact E | reflexivity].
Qed.

End Estimation.

Lemma zero_coordinate_witness :
  calculate_eta (RT := Sample.runtime) (vehicles Sample.fresh)
                (Some equator_location) (Some Sample.target)
  = (vehicles Sample.fresh, Ok (NInt 0))
  /\ calculate_eta (RT := Sample.runtime) (vehicles Sample.fresh)
                   None (Some Sample.target)
     = (vehicles Sample.fresh, Ok (NInt 0))
  /\ calculate_eta (RT := Sample.runtime) (vehicles Sample.fresh)
                   (Some equator_location) None
     = (vehicles Sample.fresh, Ok (NInt 0)).
Proof.
  apply (zero_coordinate_gives_zero_eta (RT := Sample.runtime)
           (vehicles Sample.fresh) equator_location Sample.target
           (VNum (NFloat 0))).
  - vm_compute. constructor.
  - left. exists (NFloat 0). split; reflexivity.
Defined.



Lemma distance_store_witness :
  (let lat := get2 (location_of Sample.unit3) "latitude" "lat" in
  let lng := get2 (location_of Sample.unit3) "longitude" "lng" in
  let matches v :=
    py_eq (v_latitude v) lat = true /\ py_eq (v_longitude v) lng = true in
  let vs := vehicles Sample.fresh in
  let vs' := (calculate_eta (RT := Sample.runtime) vs
                (Some (location_of Sample.unit3)) (Some Sample.target)).1 in
  length vs' = length vs
  /\ ((exists i v v',
          vs !! i = Some v /\ matches v
          /\ (forall j y, vs !! j = Some y -> (j < i)%nat -> ~ matches y)
          /\ vs' !! i = Some v'
          /\ v_distance v' = Some (round1 sample_distance)
          /\ v_id v' = v_id v /\ v_name v' = v_name v /\ v_type v' = v_type v
          /\ v_latitude v' = v_latitude v /\ v_longitude v' = v_longitude v
          /\ v_services v' = v_services v /\ v_eta v' = v_eta v
          /\ v_available v' = v_available v /\ v_status v' = v_status v
          /\ (forall j, j <> i -> vs' !! j = vs !! j))
      \/ (Forall (fun v => ~ matches v) vs /\ vs' = vs)))
  /\ v_distance <$> vehicles Sample.fresh = [None; None; None]
  /\ v_distance <$>
       (calculate_eta (RT := Sample.runtime) (vehicles Sample.fresh)
                      (Some (location_of Sample.unit3)) (Some Sample.target)).1
     = [Some 0.1%float; None; None].
Proof.
  split; [|split; vm_compute; reflexivity].
  apply (distance_goes_to_first_coordinate_match (RT := Sample.runtime)
           (vehicles Sample.fresh) (location_of Sample.unit3) Sample.target
           sample_distance).
  - vm_compute. reflexivity.
  - vm_compute. reflexivity.
Defined.

(** A request made for the third sample vehicle writes the [distance] of the
    first one, which has the same coordinates, and not its own. *)
Example shared_coordinates_cross_write :
  v_distance <$>
    (calculate_eta (RT := Sample.runtime) (vehicles Sample.fresh)
                   (Some (location_of Sample.unit3)) (Some Sample.target)).1
  = [Some 0.1%float; None; None].
Proof. vm_compute. reflexivity. Qed.

(** ** Index loops over a list *)

Lemma alter_out_of_range {A : Type} (f : A -> A) (l : list A) (i : nat) :
  l !! i = None -> alter f i l = l.
Proof.
  revert i. induction l as [|x l IH]; intros [|i] H; cbn in *;
    try reflexivity; try discriminate.
  f_equal. apply IH. exact H.
Qed.

Lemma foldl_alter_from {A : Type} (f : A -> A) (l pre : list A) :
  foldl (fun acc i => alter f i acc) (pre ++ l) (seq (length pre) (length l))
  = pre ++ (f <$> l).
Proof.
  revert pre. induction l as [|x l IH]; intros pre; [reflexivity|].
  cbn [length seq foldl].
  replace (alter f (length pre) (pre ++ x :: l)) with ((pre ++ [f x]) ++ l).
  - specialize (IH (pre ++ [f x])). rewrite length_app in IH. cbn in IH.
    rewrite Nat.add_1_r in IH. rewrite IH, <- app_assoc. reflexivity.
  - rewrite <- app_assoc. cbn.
    rewrite <- (Nat.add_0_r (length pre)). rewrite alter_app_r. reflexivity.
Qed.

Lemma foldl_alter_all {A : Type} (f : A -> A) (l : list A) :
  foldl (fun acc i => alter f i acc) l (seq 0 (length l)) = f <$> l.
Proof. exact (foldl_alter_from f l []). Qed.



(** ** Keys that the ETA writes leave alone *)

Lemma frame_erase_distance (vs : list Vehicle) :
  frame <$> (erase_distance <$> vs) = frame <$> vs.
Proof. rewrite <- list_fmap_compose. reflexivity. Qed.

Lemma frame_alter_set_eta (s : string) (i : nat) (vs : list Vehicle) :
  frame <$> alter (set_eta s) i vs = frame <$> vs.
Proof.
  rewrite (list_fmap_alter frame _ id).
  - apply list_alter_id. reflexivity.
  - apply Forall_forall. reflexivity.
Qed.

Lemma erase_alter_set_eta (s : string) (i : nat) (vs : list Vehicle) :
  erase_distance <$> alter (set_eta s) i vs
  = alter (set_eta s) i (erase_distance <$> vs).
Proof. apply list_fmap_alter, Forall_forall. reflexivity. Qed.

Section Handlers.
Context {RT : PyRuntime}.

Lemma calculate_eta_frame (vs : list Vehicle) (vl el : option Dict) :
  frame <$> (calculate_eta vs vl el).1 = frame <$> vs.
Proof.
  rewrite <- frame_erase_distance, calculate_eta_erase.
  apply frame_erase_distance.
Qed.

(** What [computable] means: a component is false, so that the function
    returns early, or the haversine computation goes through. *)
Lemma computable_iff (loc : Dict) (v : Vehicle) :
  computable loc v
  <-> forallb truthy (components (location_of v) loc) = false
      \/ is_Some (haversine_km
                    (get2 (location_of v) "latitude" "lat")
                    (get2 (location_of v) "longitude" "lng")
                    (get2 loc "latitude" "lat") (get2 loc "longitude" "lng")).
Proof.
  unfold computable, eta_of.
  destruct (forallb truthy (components (location_of v) loc)) eqn:Hc.
  - destruct (haversine_km _ _ _ _) as [d|] eqn:Hd.
    + rewrite (calculate_eta_computed _ _ _ d Hc Hd). cbn.
      split; [eauto | discriminate].
    + rewrite (calculate_eta_raise _ _ _ Hc Hd). cbn.
      split; [contradiction|].
      intros [H|[d H]]; discriminate.
  - rewrite (calculate_eta_zero _ _ _ Hc). cbn.
    split; [eauto | discriminate].
Qed.

(** A computable ETA is returned by [calculate_eta] whatever the registry. *)
Lemma calculate_eta_computable (vs : list Vehicle) (loc : Dict) (v : Vehicle) :
  computable loc v ->
  exists vs1,
    calculate_eta vs (Some (location_of v)) (Some loc)
    = (vs1, Ok (eta_num (eta_of (Some (location_of v)) (Some loc))))
    /\ erase_distance <$> vs1 = erase_distance <$> vs.
Proof.
  intros Hc.
  pose proof (calculate_eta_snd vs (Some (location_of v)) (Some loc)) as Hs.
  pose proof (calculate_eta_erase vs (Some (location_of v)) (Some loc)) as He.
  destruct (calculate_eta vs _ _) as [vs1 r]. cbn in Hs, He. subst r.
  exists vs1. split; [|exact He].
  unfold computable in Hc. destruct (eta_of _ _); [reflexivity | contradiction].
Qed.

(** ** The loop of [get_location] *)

Lemma get_location_loop_spec (loc : Dict) (idxs : list nat) :
  forall vs,
    Forall (computable loc) (frame <$> vs) ->
    exists vs',
      get_location_loop loc idxs vs = (vs', Ok tt)
      /\ erase_distance <$> vs'
         = foldl (fun acc i => alter (refresh loc) i acc)
                 (erase_distance <$> vs) idxs.
Proof.
  induction idxs as [|i rest IH]; intros vs Hall; cbn [get_location_loop foldl].
  - eauto.
  - destruct (vs !! i) as [v|] eqn:Hi.
    + assert (computable loc v) as Hv.
      { rewrite Forall_fmap in Hall.
        exact (proj1 (Forall_lookup _ _) Hall i v Hi). }
      destruct (calculate_eta_computable vs loc v Hv) as (vs1 & -> & He).
      set (eta := eta_num (eta_of (Some (location_of v)) (Some loc))).
      destruct (IH (alter (set_eta (eta_label eta)) i vs1)) as (vs' & -> & Hvs').
      { rewrite frame_alter_set_eta, <- frame_erase_distance, He,
          frame_erase_distance. exact Hall. }
      exists vs'. split; [reflexivity|].
      rewrite Hvs', erase_alter_set_eta, He. f_equal.
      apply list_alter_ext; [|reflexivity].
      intros x Hx. rewrite list_lookup_fmap, Hi in Hx.
      injection Hx as <-. reflexivity.
    + destruct (IH vs Hall) as (vs' & -> & Hvs').
      exists vs'. split; [reflexivity|].
      rewrite Hvs', alter_out_of_range; [reflexivity|].
      rewrite list_lookup_fmap, Hi. reflexivity.
Qed.

(** ** The loop of [calculate_etas] *)


(** ** When an ETA cannot be computed *)

Lemma get_location_loop_raise (loc : Dict) (idxs : list nat) :
  forall vs i v,
    i ∈ idxs -> (frame <$> vs) !! i = Some v -> ~ computable loc v ->
    (get_location_loop loc idxs vs).2 = Raise.
Proof.
  induction idxs as [|j rest IH]; intros vs i v Hin Hi Hn.
  { apply elem_of_nil in Hin. contradiction. }
  cbn [get_location_loop]. rewrite list_lookup_fmap in Hi.
  destruct (vs !! j) as [w|] eqn:Hj.
  - pose proof (calculate_eta_snd vs (Some (location_of w)) (Some loc)) as Hs.
    pose proof (calculate_eta_frame vs (Some (location_of w)) (Some loc)) as Hf.
    destruct (calculate_eta vs _ _) as [vs1 [eta|]]; cbn [fst snd] in *;
      [|reflexivity].
    apply elem_of_cons in Hin as [->|Hin].
    + rewrite Hj in Hi. apply (inj Some) in Hi. subst v.
      exfalso. apply Hn. unfold computable.
      change (location_of (frame w)) with (location_of w).
      rewrite <- Hs. discriminate.
    + apply (IH _ i v Hin); [|exact Hn].
      rewrite frame_alter_set_eta, Hf, list_lookup_fmap. exact Hi.
  - apply elem_of_cons in Hin as [->|Hin].
    + rewrite Hj in Hi. discriminate.
    + apply (IH _ i v Hin); [|exact Hn]. rewrite list_lookup_fmap. exact Hi.
Qed.

(** If the ETA of some vehicle cannot be computed, [get_location] answers
    with the server error, also for a known phone number. *)
Lemma get_location_exception (phone : string) (entry : PhoneEntry)
    (p : Processor) (i : nat) (v : Vehicle) :
  phone_locations !! phone = Some entry ->
  vehicles p !! i = Some v ->
  ~ computable {[ "lat" := VNum (NFloat (pe_lat entry));
                  "lng" := VNum (NFloat (pe_lng entry)) ]} v ->
  (get_location phone p).2 = RException.
Proof.
  intros H Hi Hn. unfold get_location, get_location_from_phone. rewrite H.
  cbn [ld_location].
  set (loc := {[ "lat" := VNum (NFloat (pe_lat entry));
                 "lng" := VNum (NFloat (pe_lng entry)) ]} : Dict) in *.
  assert ((get_location_loop loc (seq 0 (length (vehicles p))) (vehicles p)).2
          = Raise) as Hr.
  { apply (get_location_loop_raise loc _ _ i (frame v)).
    - apply elem_of_seq. split; [lia|]. cbn. apply lookup_lt_is_Some. eauto.
    - rewrite list_lookup_fmap, Hi. reflexivity.
    - exact Hn. }
  destruct (get_location_loop _ _ _) as [vs [u|]]; [discriminate Hr|reflexivity].
Qed.


End Handlers.

Section Resolution.
Context {RT : PyRuntime}.

(** ** Resolving a phone number *)

(** C6: for a phone number that is not a key of the seeded table,
    [get_location] answers 404 "Location not found" and the whole state, the
    registry included, is what it was before the call. *)
Theorem unknown_phone_not_found (phone : string) (p : Processor) :
  phone_locations !! phone = None ->
  get_location phone p = (p, RError 404 "Location not found").
Proof.
  intros H. unfold get_location, get_location_from_phone. rewrite H. reflexivity.
Qed.

(** C7 (amended): for a phone number of the seeded table, and a registry in
    which every ETA towards that phone's location can be computed (no
    conversion and no library call raises), [get_location] answers with the
    location and address of the table and leaves a registry in which the
    [eta] key of every vehicle holds the label of the ETA that
    [calculate_eta] returns for it towards that location ("N/A" unless the
    ETA is positive), every other key except [distance] being unchanged. *)
Theorem known_phone_refreshes_every_eta
    (phone : string) (entry : PhoneEntry) (p : Processor) :
  phone_locations !! phone = Some entry ->
  let loc : Dict := {[ "lat" := VNum (NFloat (pe_lat entry));
                       "lng" := VNum (NFloat (pe_lng entry)) ]} in
  Forall (computable loc) (vehicles p) ->
  exists vs',
    get_location phone p
    = (with_vehicles vs' p, RLocation (mkLocationData loc (pe_address entry)))
    /\ erase_distance <$> vs' = erase_distance <$> (refresh loc <$> vehicles p)
    /\ forall i v,
         vehicles p !! i = Some v ->
         exists v' eta,
           vs' !! i = Some v'
           /\ (calculate_eta (vehicles p) (Some (location_of v)) (Some loc)).2
              = Ok eta
           /\ v_eta v' = (if num_gt0 eta then num_str eta +:+ " mins" else "N/A")
           /\ v_id v' = v_id v /\ v_name v' = v_name v /\ v_type v' = v_type v
           /\ v_latitude v' = v_latitude v /\ v_longitude v' = v_longitude v
           /\ v_services v' = v_services v
           /\ v_available v' = v_available v /\ v_status v' = v_status v.
Proof.
  intros H loc Hall. unfold get_location, get_location_from_phone. rewrite H.
  cbn [ld_location]. fold loc.
  destruct (get_location_loop_spec loc (seq 0 (length (vehicles p))) (vehicles p))
    as (vs' & -> & Hvs').
  { rewrite Forall_fmap. exact Hall. }
  rewrite <- (length_fmap erase_distance (vehicles p)), foldl_alter_all in Hvs'.
  assert (erase_distance <$> vs' = erase_distance <$> (refresh loc <$> vehicles p))
    as He.
  { rewrite Hvs', <- !list_fmap_compose. apply list_fmap_ext.
    intros i x _. reflexivity. }
  exists vs'. split; [reflexivity|]. split; [exact He|].
  intros i v Hi.
  assert ((erase_distance <$> vs') !! i = Some (erase_distance (refresh loc v)))
    as Hl by (rewrite He, !list_lookup_fmap, Hi; reflexivity).
  rewrite list_lookup_fmap in Hl.
  destruct (vs' !! i) as [v'|]; [|discriminate Hl].
  apply (inj Some) in Hl.
  pose proof (proj1 (Forall_lookup _ _) Hall i v Hi) as Hc.
  unfold computable in Hc.
  pose proof (calculate_eta_snd (vehicles p) (Some (location_of v)) (Some loc))
    as Hs.
  assert (v_eta v'
          = eta_label (eta_num (eta_of (Some (location_of v)) (Some loc)))) as Heta
    by exact (f_equal v_eta Hl).
  destruct (eta_of (Some (location_of v)) (Some loc)) as [eta|];
    [|contradiction].
  exists v', eta. split; [reflexivity|]. split; [exact Hs|].
  split; [exact Heta|].
  repeat split.
  - exact (f_equal v_id Hl).
  - exact (f_equal v_name Hl).
  - exact (f_equal v_type Hl).
  - exact (f_equal v_latitude Hl).
  - exact (f_equal v_longitude Hl).
  - exact (f_equal v_services Hl).
  - exact (f_equal v_available Hl).
  - exact (f_equal v_status Hl).
Qed.

(** ** Batch ETA *)



End Resolution.

Lemma unknown_phone_witness :
  get_location (RT := Sample.runtime) "0000000000" Sample.fresh
  = (Sample.fresh, RError 404 "Location not found").
Proof.
  apply (unknown_phone_not_found (RT := Sample.runtime)).
  vm_compute. reflexivity.
Defined.

Lemma known_phone_witness :
  (let loc : Dict := {[ "lat" := VNum (NFloat 13.3415);
                        "lng" := VNum (NFloat 77.1030) ]} in
   exists vs',
     get_location (RT := Sample.runtime) "9876543211" Sample.fresh
     = (with_vehicles vs' Sample.fresh,
        RLocation (mkLocationData loc "Tumkur Bus Stand"))
     /\ erase_distance <$> vs'
        = erase_distance <$> (refresh (RT := Sample.runtime) loc
                                <$> vehicles Sample.fresh)
     /\ forall i v,
          vehicles Sample.fresh !! i = Some v ->
          exists v' eta,
            vs' !! i = Some v'
            /\ (calculate_eta (RT := Sample.runtime) (vehicles Sample.fresh)
                              (Some (location_of v)) (Some loc)).2
               = Ok eta
            /\ v_eta v'
               = (if num_gt0 eta
                  then num_str (RT := Sample.runtime) eta +:+ " mins"
                  else "N/A")
            /\ v_id v' = v_id v /\ v_name v' = v_name v /\ v_type v' = v_type v
            /\ v_latitude v' = v_latitude v /\ v_longitude v' = v_longitude v
            /\ v_services v' = v_services v
            /\ v_available v' = v_available v /\ v_status v' = v_status v)
  /\ (get_location (RT := Sample.runtime) "9876543211" Sample.fresh).2
     = RLocation (mkLocationData
                    {[ "lat" := VNum (NFloat 13.3415);
                       "lng" := VNum (NFloat 77.1030) ]} "Tumkur Bus Stand")
  /\ v_eta <$> vehicles (get_location (RT := Sample.runtime)
                           "9876543211" Sample.fresh).1
     = ["1 mins"; "2.1 mins"; "1 mins"].
Proof.
  split; [|split; vm_compute; reflexivity].
  apply (known_phone_refreshes_every_eta (RT := Sample.runtime)
           "9876543211" (mkPhoneEntry 13.3415 77.1030 "Tumkur Bus Stand")
           Sample.fresh).
  - vm_compute. reflexivity.
  - repeat constructor; intros H; vm_compute in H; discriminate H.
Defined.

(** C7, as stated, fails: the phone is in the seeded table, the second
    vehicle of the registry has the integer [10^400] as latitude, and the
    answer is the server error instead of the location; the [eta] of the
    first vehicle has been rewritten, the [eta] of the third has not. *)
Lemma known_phone_counterexample :
  let p := init (Some [Sample.unit1; Sample.unit6; Sample.unit2]) in
  phone_locations !! "9876543211"
  = Some (mkPhoneEntry 13.3415 77.1030 "Tumkur Bus Stand")
  /\ (get_location (RT := Sample.runtime) "9876543211" p).2 = RException
  /\ v_eta <$> vehicles (get_location (RT := Sample.runtime) "9876543211" p).1
     = ["1 mins"; "N/A"; "N/A"].
Proof. repeat split; vm_compute; reflexivity. Qed.



(** The answer of the sample batch request: the second and third vehicles,
    in registry order, and nothing for the unknown id. *)
Example batch_eta_sample :
  (calculate_etas (RT := Sample.runtime) (Some Sample.target)
                  ["V3"; "V2"; "V7"] Sample.fresh).2
  = REtas [mkEtaSummary "V2" "Fire Engine 1" "FIRE" (NFloat 2.1) "AVAILABLE" true
                        ["Ladder"];
           mkEtaSummary "V3" "Ambulance 2" "AMBULANCE" (NInt 1) "AVAILABLE" true
                        []].
Proof. vm_compute. reflexivity. Qed.

(** ** Availability and status *)

Section Preservation.
Context {RT : PyRuntime}.
Variable P : Vehicle -> Prop.
Hypothesis P_distance : forall d v, P v -> P (set_distance d v).
Hypothesis P_eta : forall s v, P v -> P (set_eta s v).

Lemma calculate_eta_preserves (vs : list Vehicle) (vl el : option Dict) :
  Forall P vs -> Forall P (calculate_eta vs vl el).1.
Proof.
  intros H. unfold calculate_eta.
  destruct vl as [vl|], el as [el|]; try exact H.
  repeat match goal with |- context [if ?c then _ else _] => destruct c end;
    try exact H.
  destruct (haversine_km _ _ _ _); [|exact H].
  cbn [fst]. unfold store_distance.
  destruct (list_find _ vs) as [[i v]|]; [|exact H].
  apply Forall_alter; auto.
Qed.

Lemma get_location_loop_preserves (loc : Dict) (idxs : list nat) :
  forall vs, Forall P vs -> Forall P (get_location_loop loc idxs vs).1.
Proof.
  induction idxs as [|i rest IH]; intros vs H; cbn [get_location_loop];
    [exact H|].
  destruct (vs !! i) as [v|]; [|auto].
  pose proof (calculate_eta_preserves vs (Some (location_of v)) (Some loc) H) as H1.
  destruct (calculate_eta vs _ _) as [vs1 [eta|]]; cbn [fst] in *; [|exact H1].
  apply IH, Forall_alter; auto.
Qed.

Lemma calculate_etas_loop_preserves (el : Dict) (ids : list string)
    (idxs : list nat) :
  forall vs etas,
    Forall P vs -> Forall P (calculate_etas_loop el ids idxs vs etas).1.
Proof.
  induction idxs as [|i rest IH]; intros vs etas H; cbn [calculate_etas_loop];
    [exact H|].
  destruct (vs !! i) as [v|]; [|auto].
  destruct (bool_decide (v_id v ∈ ids)); [|auto].
  pose proof (calculate_eta_preserves vs (Some (location_of v)) (Some el) H) as H1.
  destruct (calculate_eta vs _ _) as [vs1 [eta|]]; cbn [fst] in *; [|exact H1].
  apply IH, Forall_alter; auto.
Qed.

End Preservation.

Section Lifecycle.
Context {RT : PyRuntime}.

Lemma consistent_set_distance (d : float) (v : Vehicle) :
  consistent v -> consistent (set_distance d v).
Proof. exact id. Qed.

Lemma consistent_set_eta (s : string) (v : Vehicle) :
  consistent v -> consistent (set_eta s v).
Proof. exact id. Qed.

Lemma consistent_en_route (s : string) (v : Vehicle) :
  consistent (set_eta s (set_status "EN_ROUTE" (set_available false v))).
Proof. split; discriminate. Qed.

Lemma load_vehicles_consistent (data : option (list Vehicle)) :
  Forall consistent (load_vehicles data).
Proof.
  destruct data as [l|]; cbn; [|constructor].
  apply Forall_fmap, Forall_forall. intros v _. split; reflexivity.
Qed.

Lemma get_location_consistent (phone : string) (p : Processor) :
  Forall consistent (vehicles p) ->
  Forall consistent (vehicles (get_location phone p).1).
Proof.
  intros H. unfold get_location.
  destruct (get_location_from_phone phone) as [ld|]; [|exact H].
  pose proof (get_location_loop_preserves consistent consistent_set_distance
                consistent_set_eta (ld_location ld)
                (seq 0 (length (vehicles p))) (vehicles p) H) as H1.
  destruct (get_location_loop _ _ _) as [vs [u|]]; exact H1.
Qed.

Lemma calculate_etas_consistent (el : option Dict) (ids : list string)
    (p : Processor) :
  Forall consistent (vehicles p) ->
  Forall consistent (vehicles (calculate_etas el ids p).1).
Proof.
  intros H. unfold calculate_etas.
  destruct el as [el|]; [|exact H].
  destruct (_ || _); [exact H|].
  pose proof (calculate_etas_loop_preserves consistent consistent_set_distance
                consistent_set_eta el ids
                (seq 0 (length (vehicles p))) (vehicles p) [] H) as H1.
  destruct (calculate_etas_loop _ _ _ _ _) as [vs [etas|]]; exact H1.
Qed.

Lemma update_location_vehicles (phone : option string) (loc : option Dict)
    (p : Processor) :
  vehicles (update_location phone loc p).1 = vehicles p.
Proof.
  unfold update_location.
  destruct phone as [ph|], loc as [l|]; try reflexivity.
  destruct (_ && _); reflexivity.
Qed.

Lemma dispatch_vehicle_consistent (vid ph : option string) (p : Processor) :
  Forall consistent (vehicles p) ->
  Forall consistent (vehicles (dispatch_vehicle vid ph p).1).
Proof.
  intros H. unfold dispatch_vehicle.
  destruct vid as [vid|], ph as [ph|]; try exact H.
  destruct (_ || _); [exact H|].
  destruct (negb _); [exact H|].
  destruct (list_find _ _) as [[i v]|]; [|exact H].
  pose proof (calculate_eta_preserves consistent consistent_set_distance
                (vehicles p) (Some (location_of v)) (get_phone_location ph p) H)
    as H1.
  destruct (calculate_eta _ _ _) as [vs1 [eta|]]; cbn [fst vehicles with_vehicles] in *;
    [|exact H1].
  rewrite !list_alter_alter_eq.
  apply Forall_alter; [exact H1|].
  intros x _ _. apply consistent_en_route.
Qed.

Lemma handle_consistent (r : request) (p : Processor) :
  Forall consistent (vehicles p) ->
  Forall consistent (vehicles (handle r p).1).
Proof.
  destruct r; cbn [handle].
  - intros H. unfold get_vehicles. destruct (negb _); exact H.
  - apply get_location_consistent.
  - apply calculate_etas_consistent.
  - rewrite update_location_vehicles. exact id.
  - apply dispatch_vehicle_consistent.
Qed.

Lemma run_consistent (rs : list request) :
  forall p, Forall consistent (vehicles p) ->
            Forall consistent (vehicles (run rs p)).
Proof.
  induction rs as [|r rs IH]; intros p H; [exact H|].
  cbn [run foldl]. apply IH, handle_consistent, H.
Qed.

(** C4: whatever catalog is loaded and whatever requests are served
    afterwards (listing, location resolution, batch ETA, location report,
    dispatch), every vehicle of the registry has [available] true exactly
    when its status is ["AVAILABLE"], and none is at once available and
    ["EN_ROUTE"]. *)
Theorem available_iff_status_available
    (data : option (list Vehicle)) (rs : list request) :
  Forall (fun v =>
            (v_available v = true <-> v_status v = "AVAILABLE")
            /\ ~ (v_available v = true /\ v_status v = "EN_ROUTE"))
         (vehicles (run rs (init data))).
Proof.
  eapply Forall_impl.
  - apply run_consistent. exact (load_vehicles_consistent data).
  - intros v Hv. split; [exact Hv|].
    intros [Ha Hs]. apply Hv in Ha. rewrite Ha in Hs. discriminate.
Qed.

End Lifecycle.

(** ** Listing *)

Lemma utf8_nonempty (c : N) : exists b t, utf8 c = String b t.
Proof.
  unfold utf8.
  repeat match goal with |- context [if ?x then _ else _] => destruct x end;
    eauto.
Qed.

Lemma upper_char_nonempty (c : N) (b : Ascii.ascii) (t : string) :
  exists b' t', upper_char c (String b t) = String b' t'.
Proof.
  unfold upper_char.
  destruct (run_image c upper_runs) as [u|]; [apply utf8_nonempty|].
  destruct (special_image c upper_specials) as [[u rest]|]; [|eauto].
  destruct (utf8_nonempty u) as (b' & t' & ->). cbn. eauto.
Qed.

Lemma append_nonempty (b : Ascii.ascii) (t s : string) :
  exists b' t', String b t +:+ s = String b' t'.
Proof. cbn. eauto. Qed.

(** The upper-case image of a text is empty for the empty text only. *)
Lemma upper_nonempty (a : Ascii.ascii) (r : string) :
  exists b t, upper (String a r) = String b t.
Proof.
  assert (forall c b t s, exists b' t', upper_char c (String b t) +:+ s = String b' t')
    as Happ.
  { intros c b t s. destruct (upper_char_nonempty c b t) as (b' & t' & ->).
    apply append_nonempty. }
  cbn [upper].
  destruct (_ <? 128)%N; [apply Happ|].
  destruct r as [|a1 r1]; [eauto|].
  destruct (_ && continuation _); [apply Happ|].
  destruct r1 as [|a2 r2]; [eauto|].
  destruct (_ && continuation _); [apply Happ|].
  destruct r2 as [|a3 r3]; [eauto|].
  destruct (_ && continuation _); [apply Happ | eauto].
Qed.

Lemma upper_eqb_empty (s : string) : String.eqb (upper s) "" = String.eqb s "".
Proof.
  destruct s as [|a r]; [reflexivity|].
  destruct (upper_nonempty a r) as (b & t & ->). reflexivity.
Qed.

Lemma filter_agree {A : Type} (P Q : A -> Prop)
    `{!forall x, Decision (P x)} `{!forall x, Decision (Q x)} (l : list A) :
  Forall (fun x => P x <-> Q x) l -> filter P l = filter Q l.
Proof.
  induction 1 as [|x l Hx _ IH]; [reflexivity|].
  rewrite !filter_cons, IH.
  destruct (decide (P x)), (decide (Q x)); tauto.
Qed.

(** [str.upper] on known texts: letters of any script, and characters whose
    image has several characters. *)
Example upper_values :
  map upper ["ambulance"; "Fire"; "POLICE 2"; "fıre"; "straße"; "ÿ"; "ǆ"; ""]
  = ["AMBULANCE"; "FIRE"; "POLICE 2"; "FIRE"; "STRASSE"; "Ÿ"; "Ǆ"; ""].
Proof. vm_compute. reflexivity. Qed.

(** C8 (amended): for a non-empty filter, [get_vehicles] changes nothing
    and lists, in registry order, exactly the vehicles whose stored type is
    the upper-cased filter and whose [available] is true (possibly none);
    the stored type is compared as it is, so that this is the match up to
    case when the stored types are upper-case; without a filter, or with an
    empty one, the whole registry is listed whatever the availability. *)
Theorem listing_matches_uppercased_filter (ty : string) (p : Processor) :
  ty <> "" ->
  get_vehicles (Some ty) p
  = (p, RVehicles (filter (fun v => v_type v = upper ty /\ v_available v = true)
                          (vehicles p)))
  /\ (forall v,
        v ∈ vehicles p ->
        (v ∈ filter (fun v => v_type v = upper ty /\ v_available v = true)
                    (vehicles p)
         <-> v_type v = upper ty /\ v_available v = true))
  /\ (Forall (fun v => upper (v_type v) = v_type v) (vehicles p) ->
      get_vehicles (Some ty) p
      = (p, RVehicles (filter (fun v => upper (v_type v) = upper ty
                                        /\ v_available v = true)
                              (vehicles p))))
  /\ get_vehicles None p = (p, RVehicles (vehicles p))
  /\ get_vehicles (Some "") p = (p, RVehicles (vehicles p)).
Proof.
  intros Hty.
  assert (get_vehicles (Some ty) p
          = (p, RVehicles (filter (fun v => v_type v = upper ty
                                            /\ v_available v = true)
                                  (vehicles p)))) as Hg.
  { unfold get_vehicles. cbn [default from_option id].
    rewrite upper_eqb_empty.
    apply String.eqb_neq in Hty. rewrite Hty. reflexivity. }
  split; [exact Hg|]. split; [|split; [|split; reflexivity]].
  - intros v Hv. rewrite list_elem_of_filter. tauto.
  - intros Hup. rewrite Hg. do 2 f_equal. apply filter_agree.
    eapply Forall_impl; [exact Hup|].
    intros v Hv. cbn. rewrite Hv. reflexivity.
Qed.

Lemma listing_witness :
  (get_vehicles (Some "fıre") Sample.fresh
   = (Sample.fresh,
      RVehicles (filter (fun v => v_type v = "FIRE" /\ v_available v = true)
                        (vehicles Sample.fresh)))
   /\ (forall v,
         v ∈ vehicles Sample.fresh ->
         (v ∈ filter (fun v => v_type v = "FIRE" /\ v_available v = true)
                     (vehicles Sample.fresh)
          <-> v_type v = "FIRE" /\ v_available v = true))
   /\ (Forall (fun v => upper (v_type v) = v_type v) (vehicles Sample.fresh) ->
       get_vehicles (Some "fıre") Sample.fresh
       = (Sample.fresh,
          RVehicles (filter (fun v => upper (v_type v) = "FIRE"
                                      /\ v_available v = true)
                            (vehicles Sample.fresh))))
   /\ get_vehicles None Sample.fresh
      = (Sample.fresh, RVehicles (vehicles Sample.fresh))
   /\ get_vehicles (Some "") Sample.fresh
      = (Sample.fresh, RVehicles (vehicles Sample.fresh)))
  /\ get_vehicles (Some "fıre") Sample.fresh
     = (Sample.fresh, RVehicles (load_vehicles (Some [Sample.unit2])))
  /\ get_vehicles (Some "ambulance") Sample.fresh
     = (Sample.fresh,
        RVehicles (load_vehicles (Some [Sample.unit1; Sample.unit3])))
  /\ get_vehicles (Some "Police") Sample.fresh = (Sample.fresh, RVehicles []).
Proof.
  split; [|repeat split; vm_compute; reflexivity].
  change "FIRE" with (upper "fıre").
  apply (listing_matches_uppercased_filter "fıre" Sample.fresh).
  discriminate.
Defined.

(** C8, as stated, fails: a vehicle loaded with the type ["Ambulance"] is
    available and matches the filter ["ambulance"] up to case, yet the
    listing for that filter is empty. *)
Lemma listing_case_counterexample :
  let p := init (Some [Sample.unit4]) in
  filter (fun v => upper (v_type v) = upper "ambulance" /\ v_available v = true)
         (vehicles p)
  = load_vehicles (Some [Sample.unit4])
  /\ load_vehicles (Some [Sample.unit4]) <> []
  /\ get_vehicles (Some "ambulance") p = (p, RVehicles []).
Proof.
  split; [|split].
  - vm_compute. reflexivity.
  - discriminate.
  - vm_compute. reflexivity.
Qed.

(** ** Dispatch *)

Lemma get2_latitude (v : Vehicle) :
  get2 (location_of v) "latitude" "lat" = v_latitude v.
Proof. unfold get2, location_of. rewrite lookup_insert_eq. reflexivity. Qed.

Lemma get2_longitude (v : Vehicle) :
  get2 (location_of v) "longitude" "lng" = v_longitude v.
Proof.
  unfold get2, location_of.
  rewrite !lookup_insert_ne by discriminate.
  rewrite lookup_singleton_eq. reflexivity.
Qed.

Lemma update_location_records (ph : string) (loc : Dict) (p : Processor) :
  ph <> "" -> dict_truthy (Some loc) = true ->
  update_location (Some ph) (Some loc) p = (update_phone_location ph loc p, RSuccess).
Proof.
  intros Hph Hloc. unfold update_location.
  apply String.eqb_neq in Hph. rewrite Hph, Hloc. reflexivity.
Qed.

Section Dispatching.
Context {RT : PyRuntime}.

(** A dispatch for a phone without reported location changes nothing. *)
Lemma dispatch_without_report (vid ph : string) (p : Processor) :
  vid <> "" -> ph <> "" -> phone_to_location p !! ph = None ->
  dispatch_vehicle (Some vid) (Some ph) p
  = (p, RError 404 "Emergency location not found").
Proof.
  intros Hv Hp Hl. unfold dispatch_vehicle, get_phone_location.
  apply String.eqb_neq in Hv, Hp. rewrite Hv, Hp, Hl. reflexivity.
Qed.

(** A dispatch that finds the location and the vehicle, and whose ETA is
    [eta]. *)
Lemma dispatch_found (vid ph : string) (p : Processor) (loc : Dict)
    (i : nat) (V : Vehicle) (vs1 : list Vehicle) (eta : num) :
  vid <> "" -> ph <> "" ->
  phone_to_location p !! ph = Some loc ->
  dict_truthy (Some loc) = true ->
  list_find (fun v => v_id v = vid) (vehicles p) = Some (i, V) ->
  calculate_eta (vehicles p) (Some (location_of V)) (Some loc) = (vs1, Ok eta) ->
  exists w,
    vs1 !! i = Some w
    /\ let V' := set_eta (num_str eta +:+ " mins")
                   (set_status "EN_ROUTE" (set_available false w)) in
       dispatch_vehicle (Some vid) (Some ph) p
       = (with_vehicles (<[i := V']> vs1) p, RDispatched eta V').
Proof.
  intros Hv Hp Hl Hloc Hfind Hcalc.
  assert (exists w, vs1 !! i = Some w) as [w Hw].
  { apply list_find_Some in Hfind as (Hi & _).
    pose proof (calculate_eta_erase (vehicles p) (Some (location_of V)) (Some loc))
      as He.
    rewrite Hcalc in He. cbn [fst] in He.
    apply lookup_lt_is_Some.
    rewrite <- (length_fmap erase_distance vs1), He, length_fmap.
    apply lookup_lt_is_Some. eauto. }
  exists w. split; [exact Hw|]. intros V'.
  unfold dispatch_vehicle, get_phone_location.
  apply String.eqb_neq in Hv, Hp. rewrite Hv, Hp, Hl, Hloc. cbn [orb negb].
  rewrite Hfind, Hcalc. rewrite !list_alter_alter_eq.
  assert (alter (set_eta (num_str eta +:+ " mins")
                 ∘ set_status "EN_ROUTE" ∘ set_available false) i vs1
          = <[i := V']> vs1) as ->.
  { apply list_eq. intros j. destruct (decide (i = j)) as [<-|Hne].
    - rewrite list_lookup_alter_eq, Hw, list_lookup_insert_eq; [reflexivity|].
      apply lookup_lt_is_Some. eauto.
    - rewrite list_lookup_alter_ne, list_lookup_insert_ne by assumption.
      reflexivity. }
  rewrite list_lookup_insert_eq by (apply lookup_lt_is_Some; eauto).
  reflexivity.
Qed.

(** C1 (amended): on a freshly started system whose registry holds a
    vehicle V at (13.3409, 77.1025), for a target (13.3415, 77.1030) whose
    distance from V is positive and gives a rounded travel time below one
    minute: the ETA from V to the target is 1; a dispatch of V to
    "9876543210" fails with 404 "Emergency location not found" and changes
    nothing, the seeded table not being consulted; once the target has been
    reported as the location of that phone, the dispatch succeeds with ETA 1
    and leaves V with status EN_ROUTE, available false and eta "1 mins". *)
Theorem dispatch_needs_reported_location
    (data : list Vehicle) (vid : string) (i : nat) (V : Vehicle) (d : float) :
  let p0 := init (Some data) in
  let target : Dict := {[ "lat" := VNum (NFloat 13.3415);
                          "lng" := VNum (NFloat 77.1030) ]} in
  vid <> "" ->
  list_find (fun v => v_id v = vid) (vehicles p0) = Some (i, V) ->
  v_latitude V = VNum (NFloat 13.3409) ->
  v_longitude V = VNum (NFloat 77.1025) ->
  haversine_km (VNum (NFloat 13.3409)) (VNum (NFloat 77.1025))
               (VNum (NFloat 13.3415)) (VNum (NFloat 77.1030)) = Some d ->
  PrimFloat.ltb 0 d = true ->
  PrimFloat.ltb (round1 (d / 60 * 60)%float) 1 = true ->
  (calculate_eta (vehicles p0) (Some (location_of V)) (Some target)).2
  = Ok (NInt 1)
  /\ dispatch_vehicle (Some vid) (Some "9876543210") p0
     = (p0, RError 404 "Emergency location not found")
  /\ exists p1 p2 V',
       update_location (Some "9876543210") (Some target) p0 = (p1, RSuccess)
       /\ dispatch_vehicle (Some vid) (Some "9876543210") p1
          = (p2, RDispatched (NInt 1) V')
       /\ vehicles p2 !! i = Some V'
       /\ v_id V' = vid
       /\ v_status V' = "EN_ROUTE"
       /\ v_available V' = false
       /\ v_eta V' = "1 mins".
Proof.
  intros p0 target Hvid Hfind Hlat Hlng Hd Hpos Hlt.
  assert (dict_truthy (Some target) = true) as Htarget
    by (vm_compute; reflexivity).
  assert (forall vs,
             calculate_eta vs (Some (location_of V)) (Some target)
             = (store_distance vs (VNum (NFloat 13.3409)) (VNum (NFloat 77.1025)) d,
                Ok (NInt 1))) as Hcalc.
  { intros vs.
    pose proof (calculate_eta_computed vs (location_of V) target d) as Hc.
    rewrite get2_latitude, get2_longitude, Hlat, Hlng in Hc.
    rewrite Hc; [| |exact Hd].
    2:{ unfold components.
        rewrite get2_latitude, get2_longitude, Hlat, Hlng.
        vm_compute. reflexivity. }
    unfold eta_minutes_of. rewrite Hlt, Hpos. reflexivity. }
  split; [rewrite Hcalc; reflexivity|]. split.
  - apply dispatch_without_report; [exact Hvid | discriminate | apply lookup_empty].
  - rewrite update_location_records; [|discriminate|exact Htarget].
    set (p1 := update_phone_location "9876543210" target p0).
    assert ("9876543210" <> "") as Hph by discriminate.
    assert (phone_to_location p1 !! "9876543210" = Some target) as Hrep
      by apply lookup_insert_eq.
    destruct (dispatch_found vid "9876543210" p1 target i V
                (store_distance (vehicles p1) (VNum (NFloat 13.3409))
                                (VNum (NFloat 77.1025)) d) (NInt 1)
                Hvid Hph Hrep Htarget Hfind (Hcalc (vehicles p1)))
      as (w & Hw & Hdis).
    cbv zeta in Hdis. eexists p1, _, _. split; [reflexivity|].
    split; [exact Hdis|]. cbn [vehicles with_vehicles].
    split; [apply list_lookup_insert_eq, lookup_lt_is_Some; eauto|].
    split; [|split; [reflexivity|split; reflexivity]].
    apply list_find_Some in Hfind as (Hi & Hid & _).
    pose proof (calculate_eta_erase (vehicles p1) (Some (location_of V))
                  (Some target)) as He.
    rewrite Hcalc in He. cbn [fst] in He.
    assert ((erase_distance <$> vehicles p1) !! i = Some (erase_distance V)) as HV
      by (change (vehicles p1) with (vehicles p0);
          rewrite list_lookup_fmap, Hi; reflexivity).
    rewrite <- He, list_lookup_fmap, Hw in HV. apply (inj Some) in HV.
    cbn [v_id set_eta set_status set_available].
    rewrite <- Hid. exact (f_equal v_id HV).
Qed.

End Dispatching.

Lemma dispatch_witness :
  let p0 := init (Some [Sample.unit1; Sample.unit2; Sample.unit3]) in
  let target : Dict := {[ "lat" := VNum (NFloat 13.3415);
                          "lng" := VNum (NFloat 77.1030) ]} in
  let V := set_status "AVAILABLE" (set_available true (set_eta "N/A" Sample.unit1)) in
  (calculate_eta (RT := Sample.runtime) (vehicles p0)
                 (Some (location_of V)) (Some target)).2
  = Ok (NInt 1)
  /\ dispatch_vehicle (RT := Sample.runtime) (Some "V1") (Some "9876543210") p0
     = (p0, RError 404 "Emergency location not found")
  /\ exists p1 p2 V',
       update_location (Some "9876543210") (Some target) p0 = (p1, RSuccess)
       /\ dispatch_vehicle (RT := Sample.runtime) (Some "V1") (Some "9876543210") p1
          = (p2, RDispatched (NInt 1) V')
       /\ vehicles p2 !! 0%nat = Some V'
       /\ v_id V' = "V1"
       /\ v_status V' = "EN_ROUTE"
       /\ v_available V' = false
       /\ v_eta V' = "1 mins".
Proof.
  apply (dispatch_needs_reported_location (RT := Sample.runtime)
           [Sample.unit1; Sample.unit2; Sample.unit3] "V1" 0
           (set_status "AVAILABLE" (set_available true (set_eta "N/A" Sample.unit1)))
           sample_distance).
  - discriminate.
  - vm_compute. reflexivity.
  - reflexivity.
  - reflexivity.
  - vm_compute. reflexivity.
  - vm_compute. reflexivity.
  - vm_compute. reflexivity.
Defined.

(** C1, as stated, fails: on the freshly started sample system, whose first
    vehicle is at (13.3409, 77.1025), the dispatch of that vehicle to
    "9876543210" (a key of the seeded table, no location reported) answers
    404 and leaves the vehicle available, with status AVAILABLE and eta
    "N/A". *)
Lemma fresh_dispatch_counterexample :
  phone_locations !! "9876543210"
  = Some (mkPhoneEntry 13.3409 77.1025 "Tumkur City Center")
  /\ dispatch_vehicle (RT := Sample.runtime) (Some "V1") (Some "9876543210")
                      Sample.fresh
     = (Sample.fresh, RError 404 "Emergency location not found")
  /\ (fun v => (v_id v, v_status v, v_available v, v_eta v))
       <$> (vehicles Sample.fresh !! 0%nat)
     = Some ("V1", "AVAILABLE", true, "N/A").
Proof.
  split; [|split]; vm_compute; reflexivity.
Qed.

(** C2: a dispatch whose ETA is the integer 0 (here the caller's reported
    latitude is 0) writes "0 mins" in the [eta] key, where the label used
    by [get_location] and [calculate_etas] for the same ETA is "N/A". *)
Theorem dispatch_writes_0_mins :
  exists p1 p2 v,
    update_location (Some "9876543210") (Some Sample.equator_call) Sample.fresh
    = (p1, RSuccess)
    /\ dispatch_vehicle (RT := Sample.runtime) (Some "V1") (Some "9876543210") p1
       = (p2, RDispatched (NInt 0) v)
    /\ vehicles p2 !! 0%nat = Some v
    /\ v_eta v = "0 mins"
    /\ eta_label (RT := Sample.runtime) (NInt 0) = "N/A"
    /\ (fun s => (vehicleId s, etaMinutes s))
         <$> match (calculate_etas (RT := Sample.runtime)
                      (Some Sample.equator_call) ["V1"] Sample.fresh).2 with
             | REtas l => l
             | _ => []
             end
       = [("V1", NInt 0)]
    /\ v_eta <$> vehicles (calculate_etas (RT := Sample.runtime)
                             (Some Sample.equator_call) ["V1"] Sample.fresh).1
       = ["N/A"; "N/A"; "N/A"].
Proof.
  eexists _, _, _.
  split; [vm_compute; reflexivity|].
  split; [vm_compute; reflexivity|].
  repeat split; vm_compute; reflexivity.
Qed.

(** * Further properties of the handlers *)

(** ** What a session can change in a vehicle *)

Section Evolution.
Context {RT : PyRuntime}.
Variable R : Vehicle -> Vehicle -> Prop.
Hypothesis R_distance : forall d v w, R v w -> R v (set_distance d w).
Hypothesis R_eta : forall s v w, R v w -> R v (set_eta s w).
Hypothesis R_dispatch :
  forall s v w,
    R v w -> R v (set_eta s (set_status "EN_ROUTE" (set_available false w))).

Lemma calculate_eta_evolves (l vs : list Vehicle) (vl el : option Dict) :
  Forall2 R l vs -> Forall2 R l (calculate_eta vs vl el).1.
Proof.
  intros H. unfold calculate_eta.
  destruct vl as [vl|], el as [el|]; try exact H.
  repeat match goal with |- context [if ?c then _ else _] => destruct c end;
    try exact H.
  destruct (haversine_km _ _ _ _); [|exact H].
  cbn [fst]. unfold store_distance.
  destruct (list_find _ vs) as [[i v]|]; [|exact H].
  apply Forall2_alter_r; auto.
Qed.

Lemma get_location_loop_evolves (loc : Dict) (idxs : list nat) :
  forall l vs, Forall2 R l vs -> Forall2 R l (get_location_loop loc idxs vs).1.
Proof.
  induction idxs as [|i rest IH]; intros l vs H; cbn [get_location_loop];
    [exact H|].
  destruct (vs !! i) as [v|]; [|auto].
  pose proof (calculate_eta_evolves l vs (Some (location_of v)) (Some loc) H) as H1.
  destruct (calculate_eta vs _ _) as [vs1 [eta|]]; cbn [fst] in *; [|exact H1].
  apply IH, Forall2_alter_r; auto.
Qed.

Lemma calculate_etas_loop_evolves (el : Dict) (ids : list string)
    (idxs : list nat) :
  forall l vs etas,
    Forall2 R l vs -> Forall2 R l (calculate_etas_loop el ids idxs vs etas).1.
Proof.
  induction idxs as [|i rest IH]; intros l vs etas H; cbn [calculate_etas_loop];
    [exact H|].
  destruct (vs !! i) as [v|]; [|auto].
  destruct (bool_decide (v_id v ∈ ids)); [|auto].
  pose proof (calculate_eta_evolves l vs (Some (location_of v)) (Some el) H) as H1.
  destruct (calculate_eta vs _ _) as [vs1 [eta|]]; cbn [fst] in *; [|exact H1].
  apply IH, Forall2_alter_r; auto.
Qed.

Lemma handle_evolves (r : request) (l : list Vehicle) (p : Processor) :
  Forall2 R l (vehicles p) -> Forall2 R l (vehicles (handle r p).1).
Proof.
  intros H. destruct r as [t|n|el ids|ph loc|vid ph]; cbn [handle].
  - unfold get_vehicles. destruct (negb _); exact H.
  - unfold get_location.
    destruct (get_location_from_phone n) as [ld|]; [|exact H].
    pose proof (get_location_loop_evolves (ld_location ld)
                  (seq 0 (length (vehicles p))) l (vehicles p) H) as H1.
    destruct (get_location_loop _ _ _) as [vs [u|]]; exact H1.
  - unfold calculate_etas.
    destruct el as [el|]; [|exact H].
    destruct (_ || _); [exact H|].
    pose proof (calculate_etas_loop_evolves el ids
                  (seq 0 (length (vehicles p))) l (vehicles p) [] H) as H1.
    destruct (calculate_etas_loop _ _ _ _ _) as [vs [etas|]]; exact H1.
  - rewrite update_location_vehicles. exact H.
  - unfold dispatch_vehicle.
    destruct vid as [vid|], ph as [ph|]; try exact H.
    destruct (_ || _); [exact H|].
    destruct (negb _); [exact H|].
    destruct (list_find _ _) as [[i v]|]; [|exact H].
    pose proof (calculate_eta_evolves l (vehicles p) (Some (location_of v))
                  (get_phone_location ph p) H) as H1.
    destruct (calculate_eta _ _ _) as [vs1 [eta|]];
      cbn [fst vehicles with_vehicles] in *; [|exact H1].
    rewrite !list_alter_alter_eq.
    apply Forall2_alter_r; [exact H1|].
    intros x y _ _ Hxy. apply R_dispatch, Hxy.
Qed.

Lemma run_evolves (rs : list request) :
  forall l p, Forall2 R l (vehicles p) -> Forall2 R l (vehicles (run rs p)).
Proof.
  induction rs as [|r rs IH]; intros l p H; [exact H|].
  cbn [run foldl]. apply IH, handle_evolves, H.
Qed.

End Evolution.

Section Sessions.
Context {RT : PyRuntime}.

(** X1: whatever requests are served, the registry keeps its length and
    order, and the id, name, type, coordinates and services of every
    vehicle are the ones it had before. *)
Theorem catalog_data_never_changes (rs : list request) (p : Processor) :
  catalog_part <$> vehicles (run rs p) = catalog_part <$> vehicles p.
Proof.
  symmetry. apply list_eq_Forall2, Forall2_fmap.
  apply (run_evolves (fun v w => catalog_part v = catalog_part w)).
  - intros d v w H. exact H.
  - intros s v w H. exact H.
  - intros s v w H. exact H.
  - apply Forall_Forall2_diag, Forall_forall. reflexivity.
Qed.

(** X2: no request makes a vehicle available: a vehicle whose [available]
    is false keeps it false through every sequence of requests. *)
Theorem unavailable_stays_unavailable (rs : list request) (p : Processor) :
  Forall2 (fun v w => v_available v = false -> v_available w = false)
          (vehicles p) (vehicles (run rs p)).
Proof.
  apply (run_evolves
           (fun v w => v_available v = false -> v_available w = false)).
  - intros d v w H. exact H.
  - intros s v w H. exact H.
  - intros s v w _ _. reflexivity.
  - apply Forall_Forall2_diag, Forall_forall. intros v _ H. exact H.
Qed.

End Sessions.

(** ** The reported locations *)

Section Reports.
Context {RT : PyRuntime}.

Lemma handle_phone_to_location (r : request) (p : Processor) :
  phone_to_location (handle r p).1 = report r (phone_to_location p).
Proof.
  destruct r as [t|n|el ids|ph loc|vid ph]; cbn [handle report].
  - unfold get_vehicles. destruct (negb _); reflexivity.
  - unfold get_location. destruct (get_location_from_phone n); [|reflexivity].
    destruct (get_location_loop _ _ _) as [vs [u|]]; reflexivity.
  - unfold calculate_etas. destruct el as [el|]; [|reflexivity].
    destruct (_ || _); [reflexivity|].
    destruct (calculate_etas_loop _ _ _ _ _) as [vs [etas|]]; reflexivity.
  - unfold update_location. destruct ph as [ph|], loc as [loc|]; try reflexivity.
    destruct (_ && _); reflexivity.
  - unfold dispatch_vehicle. destruct vid as [vid|], ph as [ph|]; try reflexivity.
    destruct (_ || _); [reflexivity|].
    destruct (negb _); [reflexivity|].
    destruct (list_find _ _) as [[i v]|]; [|reflexivity].
    destruct (calculate_eta _ _ _) as [vs1 [eta|]]; reflexivity.
Qed.

Lemma report_other_phone (ph : string) (r : request) (m : gmap string Dict) :
  ~ reports_for ph r -> report r m !! ph = m !! ph.
Proof.
  intros H. destruct r as [t|n|el ids|[a|] [loc|]|vid b]; try reflexivity.
  cbn [report]. destruct (_ && _); [|reflexivity].
  apply lookup_insert_ne. exact H.
Qed.

Lemma run_keeps_report (ph : string) (rs : list request) :
  forall p,
    Forall (fun r => ~ reports_for ph r) rs ->
    get_phone_location ph (run rs p) = get_phone_location ph p.
Proof.
  unfold get_phone_location.
  induction rs as [|r rs IH]; intros p H; [reflexivity|].
  apply Forall_cons in H as [Hr Hrs]. cbn [run foldl].
  fold (run rs (handle r p).1). rewrite (IH _ Hrs), handle_phone_to_location.
  apply report_other_phone, Hr.
Qed.

(** X3: a location reported for a phone with a non-empty number and a
    non-empty location is what [get_phone_location] returns for that phone
    afterwards, also after any requests that are not reports for the same
    phone; the vehicles are not touched by the report. *)
Theorem reported_location_is_kept
    (ph : string) (loc : Dict) (rs : list request) (p : Processor) :
  ph <> "" ->
  dict_truthy (Some loc) = true ->
  Forall (fun r => ~ reports_for ph r) rs ->
  let p1 := (update_location (Some ph) (Some loc) p).1 in
  (update_location (Some ph) (Some loc) p).2 = RSuccess
  /\ vehicles p1 = vehicles p
  /\ get_phone_location ph p1 = Some loc
  /\ get_phone_location ph (run rs p1) = Some loc.
Proof.
  intros Hph Hloc Hrs p1. subst p1.
  rewrite (update_location_records ph loc p Hph Hloc). cbn [fst snd].
  assert (get_phone_location ph (update_phone_location ph loc p) = Some loc) as Hg
    by apply lookup_insert_eq.
  repeat split; [exact Hg|].
  rewrite (run_keeps_report ph rs _ Hrs). exact Hg.
Qed.

(** X4: [update_location] answers either with success, for a non-empty
    phone number and a non-empty location, which it records, or with 400
    "Invalid data", when one of the two is missing or empty, and then it
    changes nothing. *)
Theorem report_is_recorded_or_rejected
    (phone : option string) (location : option Dict) (p : Processor) :
  (exists ph loc,
      phone = Some ph /\ ph <> "" /\ location = Some loc /\ loc <> ∅
      /\ update_location phone location p
         = (update_phone_location ph loc p, RSuccess))
  \/ ((phone = None \/ phone = Some "" \/ location = None \/ location = Some ∅)
      /\ update_location phone location p = (p, RError 400 "Invalid data")).
Proof.
  destruct phone as [ph|]; [|right; split; [auto | reflexivity]].
  destruct location as [loc|];
    [|right; split; [auto | destruct ph; reflexivity]].
  unfold update_location, dict_truthy.
  destruct (String.eqb ph "") eqn:Hph.
  - apply String.eqb_eq in Hph. subst ph. right. split; [auto | reflexivity].
  - apply String.eqb_neq in Hph.
    destruct (size loc =? 0)%nat eqn:Hs.
    + apply Nat.eqb_eq, map_size_empty_iff in Hs. subst loc.
      right. split; [auto | reflexivity].
    + left. exists ph, loc. repeat split; try assumption.
      intros ->. rewrite map_size_empty in Hs. discriminate.
Qed.

(** The live vehicle locations play no part in a handler. *)
Lemma handle_with_vehicle_locations
    (m : gmap string Dict) (r : request) (p : Processor) :
  handle r (with_vehicle_locations m p)
  = (with_vehicle_locations m (handle r p).1, (handle r p).2).
Proof.
  destruct r as [t|n|el ids|ph loc|vid ph]; cbn [handle].
  - unfold get_vehicles. destruct (negb _); reflexivity.
  - unfold get_location. destruct (get_location_from_phone n); [|reflexivity].
    cbn [vehicles with_vehicle_locations].
    destruct (get_location_loop _ _ _) as [vs [u|]]; reflexivity.
  - unfold calculate_etas. destruct el as [el|]; [|reflexivity].
    destruct (_ || _); [reflexivity|].
    cbn [vehicles with_vehicle_locations].
    destruct (calculate_etas_loop _ _ _ _ _) as [vs [etas|]]; reflexivity.
  - unfold update_location. destruct ph as [ph|], loc as [loc|]; try reflexivity.
    destruct (_ && _); reflexivity.
  - unfold dispatch_vehicle. destruct vid as [vid|], ph as [ph|]; try reflexivity.
    destruct (_ || _); [reflexivity|].
    unfold get_phone_location. cbn [phone_to_location vehicles with_vehicle_locations].
    destruct (negb _); [reflexivity|].
    destruct (list_find _ _) as [[i v]|]; [|reflexivity].
    destruct (calculate_eta _ _ _) as [vs1 [eta|]]; reflexivity.
Qed.

Lemma handle_vehicle_locations (r : request) (p : Processor) :
  vehicle_locations (handle r p).1 = vehicle_locations p.
Proof.
  destruct r as [t|n|el ids|ph loc|vid ph]; cbn [handle].
  - unfold get_vehicles. destruct (negb _); reflexivity.
  - unfold get_location. destruct (get_location_from_phone n); [|reflexivity].
    destruct (get_location_loop _ _ _) as [vs [u|]]; reflexivity.
  - unfold calculate_etas. destruct el as [el|]; [|reflexivity].
    destruct (_ || _); [reflexivity|].
    destruct (calculate_etas_loop _ _ _ _ _) as [vs [etas|]]; reflexivity.
  - unfold update_location. destruct ph as [ph|], loc as [loc|]; try reflexivity.
    destruct (_ && _); reflexivity.
  - unfold dispatch_vehicle. destruct vid as [vid|], ph as [ph|]; try reflexivity.
    destruct (_ || _); [reflexivity|].
    destruct (negb _); [reflexivity|].
    destruct (list_find _ _) as [[i v]|]; [|reflexivity].
    destruct (calculate_eta _ _ _) as [vs1 [eta|]]; reflexivity.
Qed.

(** X5: the table [vehicle_locations] is neither read nor written by a
    request: replacing it by any other table changes no answer and no
    vehicle, and every sequence of requests leaves it as it was. In
    particular the ETAs and the dispatch use the catalog coordinates. *)
Theorem vehicle_locations_play_no_part
    (m : gmap string Dict) (rs : list request) (p : Processor) :
  responses rs (with_vehicle_locations m p) = responses rs p
  /\ run rs (with_vehicle_locations m p) = with_vehicle_locations m (run rs p)
  /\ vehicle_locations (run rs p) = vehicle_locations p.
Proof.
  revert p. induction rs as [|r rs IH]; intros p.
  { repeat split. }
  cbn [responses run foldl]. fold (run rs (handle r p).1).
  fold (run rs (handle r (with_vehicle_locations m p)).1).
  rewrite handle_with_vehicle_locations. cbn [fst snd].
  destruct (IH (handle r p).1) as (H1 & H2 & H3).
  rewrite H1, H2, H3, handle_vehicle_locations. repeat split.
Qed.

End Reports.

Lemma reported_location_witness :
  let p1 := (update_location (Some "9876543210") (Some Sample.target)
                             Sample.fresh).1 in
  let rs := [GetLocation "9876543211"; Dispatch (Some "V1") (Some "9876543210");
             UpdateLocation (Some "9876543211") (Some Sample.equator_call)] in
  (update_location (Some "9876543210") (Some Sample.target) Sample.fresh).2
  = RSuccess
  /\ vehicles p1 = vehicles Sample.fresh
  /\ get_phone_location "9876543210" p1 = Some Sample.target
  /\ get_phone_location "9876543210" (run (RT := Sample.runtime) rs p1)
     = Some Sample.target.
Proof.
  apply (reported_location_is_kept (RT := Sample.runtime) "9876543210"
           Sample.target
           [GetLocation "9876543211"; Dispatch (Some "V1") (Some "9876543210");
            UpdateLocation (Some "9876543211") (Some Sample.equator_call)]
           Sample.fresh).
  - discriminate.
  - vm_compute. reflexivity.
  - repeat constructor; cbn; auto; discriminate.
Defined.

(** ** Dispatch *)

Lemma list_find_related {A : Type} (P : A -> Prop) `{!forall x, Decision (P x)}
    (l k : list A) :
  Forall2 (fun x y => P x <-> P y) l k ->
  match list_find P l with
  | Some (i, _) => exists y, k !! i = Some y /\ list_find P k = Some (i, y)
  | None => list_find P k = None
  end.
Proof.
  intros Hrel. destruct (list_find P l) as [[i x]|] eqn:E.
  - apply list_find_Some in E as (Hi & Hx & Hfirst).
    destruct (Forall2_lookup_l _ _ _ _ _ Hrel Hi) as (y & Hy & Hxy).
    exists y. split; [exact Hy|].
    apply list_find_Some. split; [exact Hy|]. split; [apply Hxy, Hx|].
    intros j z Hz Hlt Pz.
    destruct (Forall2_lookup_r _ _ _ _ _ Hrel Hz) as (x' & Hx' & Hxz).
    apply (Hfirst j x' Hx' Hlt), Hxz, Pz.
  - apply list_find_None in E. apply list_find_None.
    apply Forall_forall. intros y [j Hy]%list_elem_of_lookup Py.
    destruct (Forall2_lookup_r _ _ _ _ _ Hrel Hy) as (x & Hx & Hxy).
    apply (proj1 (Forall_forall _ _) E x); [|apply Hxy, Py].
    apply list_elem_of_lookup. eauto.
Qed.

Section DispatchMore.
Context {RT : PyRuntime}.

Lemma not_computable_raise (loc : Dict) (v : Vehicle) :
  ~ computable loc v ->
  forall vs, calculate_eta vs (Some (location_of v)) (Some loc) = (vs, Raise).
Proof.
  intros Hn vs.
  destruct (forallb truthy (components (location_of v) loc)) eqn:Hc.
  - destruct (haversine_km (get2 (location_of v) "latitude" "lat")
                (get2 (location_of v) "longitude" "lng")
                (get2 loc "latitude" "lat") (get2 loc "longitude" "lng"))
      as [d|] eqn:Hd.
    + exfalso. apply Hn, computable_iff. right. rewrite Hd. eauto.
    + apply calculate_eta_raise; assumption.
  - exfalso. apply Hn, computable_iff. left. exact Hc.
Qed.

(** X6: a dispatch request without vehicle id or without phone number, or
    with an empty one, is answered 400 and changes nothing. *)
Theorem dispatch_missing_fields (vid ph : option string) (p : Processor) :
  dispatch_vehicle None ph p = (p, RError 400 "Missing vehicle_id or phone")
  /\ dispatch_vehicle (Some "") ph p = (p, RError 400 "Missing vehicle_id or phone")
  /\ dispatch_vehicle vid None p = (p, RError 400 "Missing vehicle_id or phone")
  /\ dispatch_vehicle vid (Some "") p
     = (p, RError 400 "Missing vehicle_id or phone").
Proof.
  repeat split.
  - destruct ph; reflexivity.
  - destruct vid; reflexivity.
  - destruct vid as [vid|]; [|reflexivity].
    unfold dispatch_vehicle. rewrite orb_true_r. reflexivity.
Qed.

(** X7: a dispatch for a phone with a reported location, but for an id that
    no vehicle of the registry has, is answered 404 "Vehicle not found" and
    changes nothing. *)
Theorem dispatch_unknown_vehicle
    (vid ph : string) (loc : Dict) (p : Processor) :
  vid <> "" -> ph <> "" ->
  get_phone_location ph p = Some loc ->
  dict_truthy (Some loc) = true ->
  vid ∉ v_id <$> vehicles p ->
  dispatch_vehicle (Some vid) (Some ph) p = (p, RError 404 "Vehicle not found").
Proof.
  intros Hv Hp Hl Hloc Hnot. unfold dispatch_vehicle.
  apply String.eqb_neq in Hv, Hp. rewrite Hv, Hp, Hl, Hloc. cbn [orb negb].
  destruct (list_find _ _) as [[i v]|] eqn:E; [|reflexivity].
  apply list_find_Some in E as (Hi & Hid & _).
  exfalso. apply Hnot. apply list_elem_of_fmap. exists v.
  split; [symmetry; exact Hid|]. apply list_elem_of_lookup. eauto.
Qed.

(** X8: when the ETA of the vehicle found cannot be computed, the dispatch
    is answered with the server error and changes nothing: the vehicle is
    not marked as dispatched. *)
Theorem dispatch_exception_changes_nothing
    (vid ph : string) (loc : Dict) (i : nat) (V : Vehicle) (p : Processor) :
  vid <> "" -> ph <> "" ->
  get_phone_location ph p = Some loc ->
  dict_truthy (Some loc) = true ->
  list_find (fun v => v_id v = vid) (vehicles p) = Some (i, V) ->
  ~ computable loc V ->
  dispatch_vehicle (Some vid) (Some ph) p = (p, RException).
Proof.
  intros Hv Hp Hl Hloc Hfind Hn. unfold dispatch_vehicle.
  apply String.eqb_neq in Hv, Hp. rewrite Hv, Hp, Hl, Hloc. cbn [orb negb].
  rewrite Hfind, (not_computable_raise loc V Hn). destruct p; reflexivity.
Qed.

End DispatchMore.

Section DispatchAgain.
Context {RT : PyRuntime}.

Lemma dispatch_success_inv (vid ph : option string) (p p1 : Processor)
    (eta : num) (V1 : Vehicle) :
  dispatch_vehicle vid ph p = (p1, RDispatched eta V1) ->
  exists a b loc i V vs1,
    vid = Some a /\ ph = Some b /\ a <> "" /\ b <> ""
    /\ phone_to_location p !! b = Some loc
    /\ dict_truthy (Some loc) = true
    /\ list_find (fun v => v_id v = a) (vehicles p) = Some (i, V)
    /\ calculate_eta (vehicles p) (Some (location_of V)) (Some loc) = (vs1, Ok eta)
    /\ p1 = with_vehicles (alter (dispatched (num_str eta +:+ " mins")) i vs1) p
    /\ V1 = default V (alter (dispatched (num_str eta +:+ " mins")) i vs1 !! i).
Proof.
  unfold dispatch_vehicle, get_phone_location.
  destruct vid as [a|]; [|destruct ph; intros H; inversion H].
  destruct ph as [b|]; [|intros H; inversion H].
  destruct (String.eqb a "") eqn:Ha; [intros H; inversion H|].
  destruct (String.eqb b "") eqn:Hb; [intros H; inversion H|].
  cbn [orb].
  destruct (phone_to_location p !! b) as [loc|] eqn:Hl; [|intros H; inversion H].
  destruct (dict_truthy (Some loc)) eqn:Hloc; [|intros H; inversion H].
  cbn [negb].
  destruct (list_find _ _) as [[i V]|] eqn:Hfind; [|intros H; inversion H].
  destruct (calculate_eta _ _ _) as [vs1 [eta'|]] eqn:Hcalc;
    [|intros H; inversion H].
  rewrite !list_alter_alter_eq. intros [= <- <- <-].
  exists a, b, loc, i, V, vs1.
  apply String.eqb_neq in Ha, Hb. repeat split; assumption || reflexivity.
Qed.

Lemma calculate_eta_shape (vl el : option Dict) :
  (forall vs, (calculate_eta vs vl el).1 = vs)
  \/ (exists lat lng d,
         forall vs, (calculate_eta vs vl el).1 = store_distance vs lat lng d).
Proof.
  unfold calculate_eta.
  destruct vl as [vl|], el as [el|]; try (left; reflexivity).
  repeat match goal with |- context [if ?c then _ else _] => destruct c end;
    try (left; reflexivity).
  destruct (haversine_km _ _ _ _) as [d|]; [|left; reflexivity].
  right. eexists _, _, d. reflexivity.
Qed.

End DispatchAgain.

Lemma alter_twice_absorbed {A : Type} (f g : A -> A) (i j : nat) (l : list A) :
  (forall x, f (f x) = f x) -> (forall x, f (g (f (g x))) = f (g x)) ->
  (forall x, g (g x) = g x) ->
  alter f i (alter g j (alter f i (alter g j l))) = alter f i (alter g j l).
Proof.
  intros Hf Hfg Hg. apply list_eq. intros k.
  destruct (decide (i = k)) as [Hik|Hik], (decide (j = k)) as [Hjk|Hjk]; subst;
    repeat first [ rewrite list_lookup_alter_eq
                 | rewrite list_lookup_alter_ne by assumption ];
    destruct (l !! _) as [x|]; cbn; try reflexivity; f_equal; auto.
Qed.

Section DispatchTwice.
Context {RT : PyRuntime}.

Lemma calculate_eta_same_catalog (vs : list Vehicle) (vl el : option Dict) :
  Forall2 same_catalog_part vs (calculate_eta vs vl el).1.
Proof.
  apply (calculate_eta_evolves same_catalog_part).
  - intros d v w H. exact H.
  - apply Forall_Forall2_diag, Forall_forall. reflexivity.
Qed.

Lemma store_distance_again (F : Vehicle -> Vehicle) (i : nat)
    (lat lng : value) (d : float) (vs : list Vehicle) :
  (forall x, F (F x) = F x) ->
  (forall x, same_catalog_part x (F x)) ->
  (forall x d', F (set_distance d' (F (set_distance d' x)))
                = F (set_distance d' x)) ->
  alter F i (store_distance (alter F i (store_distance vs lat lng d)) lat lng d)
  = alter F i (store_distance vs lat lng d).
Proof.
  intros HF Hcat HFD.
  assert (Forall2 (fun x y => same_place lat lng x <-> same_place lat lng y)
                  vs (alter F i (store_distance vs lat lng d))) as Hrel.
  { apply Forall2_alter_r.
    - unfold store_distance. destruct (list_find _ vs) as [[j v]|].
      + apply Forall2_alter_r;
          [apply Forall_Forall2_diag, Forall_forall; reflexivity|].
        intros x y _ _ Hxy. exact Hxy.
      + apply Forall_Forall2_diag, Forall_forall. reflexivity.
    - intros x y _ _ Hxy. rewrite Hxy. unfold same_place.
      rewrite (f_equal v_latitude (Hcat y) : v_latitude y = v_latitude (F y)).
      rewrite (f_equal v_longitude (Hcat y) : v_longitude y = v_longitude (F y)).
      reflexivity. }
  pose proof (list_find_related (same_place lat lng) vs _ Hrel) as Hfr.
  unfold store_distance at 1.
  unfold store_distance in Hfr |- *.
  destruct (list_find (same_place lat lng) vs) as [[j v]|].
  - destruct Hfr as (y & _ & ->).
    apply alter_twice_absorbed; auto.
  - rewrite Hfr, list_alter_alter_eq. apply list_alter_ext; [|reflexivity].
    intros x _. apply HF.
Qed.

(** X9: a dispatch that succeeded can be repeated: the same request on the
    state it left succeeds again, with the same ETA and the same vehicle in
    the answer, and leaves that state as it is. An already dispatched
    vehicle is not refused. *)
Theorem dispatch_again_changes_nothing
    (vid ph : option string) (p p1 : Processor) (eta : num) (V1 : Vehicle) :
  dispatch_vehicle vid ph p = (p1, RDispatched eta V1) ->
  dispatch_vehicle vid ph p1 = (p1, RDispatched eta V1).
Proof.
  intros H.
  destruct (dispatch_success_inv _ _ _ _ _ _ H)
    as (a & b & loc & i & V & vs1 & -> & -> & Ha & Hb & Hl & Hloc & Hfind
        & Hcalc & -> & ->).
  clear H.
  set (F := dispatched (num_str eta +:+ " mins")).
  pose proof Hfind as (Hi & Hid & _)%list_find_Some.
  pose proof (calculate_eta_same_catalog (vehicles p) (Some (location_of V))
                (Some loc)) as Hrel1.
  rewrite Hcalc in Hrel1. cbn [fst] in Hrel1.
  destruct (Forall2_lookup_l _ _ _ _ _ Hrel1 Hi) as (w & Hw & Hcw).
  set (S1 := alter F i vs1).
  assert (S1 !! i = Some (F w)) as HS1i
    by (unfold S1; rewrite list_lookup_alter_eq, Hw; reflexivity).
  assert (Forall2 same_catalog_part (vehicles p) S1) as HrelS.
  { apply Forall2_alter_r; [exact Hrel1|]. intros x y _ _ Hxy. exact Hxy. }
  (* the vehicle is found again, at the same place *)
  pose proof (list_find_related (fun v => v_id v = a) (vehicles p) S1) as Hfr.
  rewrite Hfind in Hfr. destruct Hfr as (y & Hy & Hfind2).
  { eapply Forall2_impl; [exact HrelS|]. intros x z Hxz.
    rewrite (f_equal v_id Hxz : v_id x = v_id z). reflexivity. }
  rewrite HS1i in Hy. apply (inj Some) in Hy. subst y.
  assert (location_of (F w) = location_of V) as Hsame.
  { unfold location_of. cbn.
    rewrite (f_equal v_latitude Hcw : v_latitude V = v_latitude w).
    rewrite (f_equal v_longitude Hcw : v_longitude V = v_longitude w).
    reflexivity. }
  (* the ETA is the same, and so is the registry *)
  assert (exists vs2,
             calculate_eta S1 (Some (location_of V)) (Some loc) = (vs2, Ok eta)
             /\ alter F i vs2 = S1) as (vs2 & Hcalc2 & Hfix).
  { pose proof (calculate_eta_snd S1 (Some (location_of V)) (Some loc)) as Hs2.
    pose proof (calculate_eta_snd (vehicles p) (Some (location_of V)) (Some loc))
      as Hs1.
    rewrite Hcalc in Hs1. cbn [snd] in Hs1. rewrite <- Hs1 in Hs2.
    exists (calculate_eta S1 (Some (location_of V)) (Some loc)).1.
    split; [rewrite <- Hs2; apply surjective_pairing|].
    destruct (calculate_eta_shape (Some (location_of V)) (Some loc))
      as [Hid'|(lat & lng & d & Hst)].
    - rewrite Hid'. unfold S1. rewrite list_alter_alter_eq.
      apply list_alter_ext; [|reflexivity]. intros x _. reflexivity.
    - rewrite Hst. unfold S1.
      pose proof (Hst (vehicles p)) as H0. rewrite Hcalc in H0. cbn [fst] in H0.
      rewrite H0. apply store_distance_again; reflexivity. }
  unfold dispatch_vehicle, get_phone_location.
  cbn [phone_to_location vehicles with_vehicles].
  apply String.eqb_neq in Ha, Hb. rewrite Ha, Hb, Hl, Hloc. cbn [orb negb].
  fold S1. rewrite Hfind2, Hsame, Hcalc2, !list_alter_alter_eq.
  change (set_eta (num_str eta +:+ " mins") ∘ set_status "EN_ROUTE"
          ∘ set_available false) with F.
  rewrite Hfix, HS1i. reflexivity.
Qed.

End DispatchTwice.

Section AfterDispatch.
Context {RT : PyRuntime}.

(** X10: in a registry whose ids are pairwise distinct, a vehicle that has
    been dispatched is in no filtered listing afterwards, whatever requests
    are served in between. *)
Theorem dispatched_vehicle_is_never_listed
    (vid : string) (ph : option string) (p p1 : Processor) (eta : num)
    (V1 : Vehicle) (rs : list request) (ty : string) :
  NoDup (v_id <$> vehicles p) ->
  dispatch_vehicle (Some vid) ph p = (p1, RDispatched eta V1) ->
  ty <> "" ->
  exists l,
    (get_vehicles (Some ty) (run rs p1)).2 = RVehicles l
    /\ Forall (fun v => v_id v <> vid) l.
Proof.
  intros Hnd Hd Hty.
  destruct (dispatch_success_inv _ _ _ _ _ _ Hd)
    as (a & b & loc & i & V & vs1 & [= <-] & -> & Ha & Hb & Hl & Hloc & Hfind
        & Hcalc & Hp1 & HV1).
  apply list_find_Some in Hfind as (Hi & Hid & _).
  (* the dispatched vehicle sits at position [i], unavailable *)
  pose proof (calculate_eta_same_catalog (vehicles p) (Some (location_of V))
                (Some loc)) as Hrel1.
  rewrite Hcalc in Hrel1. cbn [fst] in Hrel1.
  destruct (Forall2_lookup_l _ _ _ _ _ Hrel1 Hi) as (w & Hw & Hcw).
  assert (vehicles p1 !! i = Some (dispatched (num_str eta +:+ " mins") w)) as Hi1.
  { rewrite Hp1. cbn [vehicles with_vehicles].
    rewrite list_lookup_alter_eq, Hw. reflexivity. }
  (* catalog data and unavailability are kept by the session *)
  assert (catalog_part <$> vehicles (run rs p1) = catalog_part <$> vehicles p)
    as Hcat.
  { symmetry. apply list_eq_Forall2, Forall2_fmap.
    apply (run_evolves same_catalog_part); try (intros; assumption).
    rewrite Hp1. cbn [vehicles with_vehicles].
    apply Forall2_alter_r; [exact Hrel1|]. intros x y _ _ Hxy. exact Hxy. }
  assert (Forall2 (fun v w => v_available v = false -> v_available w = false)
                  (vehicles p1) (vehicles (run rs p1))) as Hav.
  { apply (run_evolves
             (fun v w => v_available v = false -> v_available w = false)).
    - intros d v w' H. exact H.
    - intros s v w' H. exact H.
    - intros s v w' _ _. reflexivity.
    - apply Forall_Forall2_diag, Forall_forall. intros v _ H. exact H. }
  unfold get_vehicles. cbn [default from_option id].
  rewrite upper_eqb_empty. apply String.eqb_neq in Hty. rewrite Hty.
  eexists. split; [reflexivity|].
  apply Forall_forall. intros v [[_ Hv] Hin]%list_elem_of_filter Hvid.
  apply list_elem_of_lookup in Hin as [k Hk].
  assert (k = i) as ->.
  { apply (NoDup_lookup _ k i vid Hnd).
    - assert ((v_id <$> (catalog_part <$> vehicles (run rs p1))) !! k = Some vid)
        as Hk' by (rewrite !list_lookup_fmap, Hk; cbn; rewrite Hvid; reflexivity).
      rewrite Hcat, <- list_fmap_compose in Hk'. exact Hk'.
    - rewrite list_lookup_fmap, Hi. cbn. rewrite Hid. reflexivity. }
  pose proof (Forall2_lookup_lr _ _ _ _ _ _ Hav Hi1 Hk eq_refl) as Hfalse.
  rewrite Hv in Hfalse. discriminate.
Qed.

End AfterDispatch.

Lemma dispatch_unknown_vehicle_witness :
  dispatch_vehicle (RT := Sample.runtime) (Some "V9") (Some "9876543210")
    (update_phone_location "9876543210" Sample.target Sample.fresh)
  = (update_phone_location "9876543210" Sample.target Sample.fresh,
     RError 404 "Vehicle not found").
Proof.
  apply (dispatch_unknown_vehicle (RT := Sample.runtime) "V9" "9876543210"
           Sample.target).
  - discriminate.
  - discriminate.
  - vm_compute. reflexivity.
  - vm_compute. reflexivity.
  - apply (proj1 (bool_decide_eq_false _)). vm_compute. reflexivity.
Defined.

Lemma dispatch_exception_witness :
  let p := update_phone_location "9876543210" Sample.target
             (init (Some [Sample.unit1; Sample.unit5])) in
  dispatch_vehicle (RT := Sample.runtime) (Some "V5") (Some "9876543210") p
  = (p, RException).
Proof.
  apply (dispatch_exception_changes_nothing (RT := Sample.runtime)
           "V5" "9876543210" Sample.target 1
           (set_status "AVAILABLE" (set_available true (set_eta "N/A" Sample.unit5)))).
  - discriminate.
  - discriminate.
  - vm_compute. reflexivity.
  - vm_compute. reflexivity.
  - vm_compute. reflexivity.
  - intros H. apply H. vm_compute. reflexivity.
Defined.

Lemma dispatch_again_witness :
  dispatch_vehicle (RT := Sample.runtime) (Some "V3") (Some "9876543210")
                   after_dispatch
  = (after_dispatch, RDispatched (NInt 1) dispatched_unit).
Proof.
  apply (dispatch_again_changes_nothing (RT := Sample.runtime)
           (Some "V3") (Some "9876543210") after_report).
  vm_compute. reflexivity.
Defined.

Lemma never_listed_witness :
  exists l,
    (get_vehicles (Some "ambulance")
       (run (RT := Sample.runtime)
            [GetLocation "9876543211"; CalculateEtas (Some Sample.target) ["V3"]]
            after_dispatch)).2
    = RVehicles l
    /\ Forall (fun v => v_id v <> "V3") l.
Proof.
  apply (dispatched_vehicle_is_never_listed (RT := Sample.runtime)
           "V3" (Some "9876543210") after_report after_dispatch (NInt 1)
           dispatched_unit).
  - apply (bool_decide_unpack _). vm_compute. exact I.
  - vm_compute. reflexivity.
  - discriminate.
Defined.

(** ** Batch ETA, further *)

Section BatchMore.
Context {RT : PyRuntime}.

(** X11: a batch request without target, with an empty target or with an
    empty list of ids is answered 400 and changes nothing. *)
Theorem batch_eta_missing_parameters
    (el : option Dict) (ids : list string) (p : Processor) :
  calculate_etas None ids p = (p, RError 400 "Missing location or vehicle IDs")
  /\ calculate_etas (Some ∅) ids p
     = (p, RError 400 "Missing location or vehicle IDs")
  /\ calculate_etas el [] p = (p, RError 400 "Missing location or vehicle IDs").
Proof.
  repeat split.
  unfold calculate_etas. destruct el as [el|]; [|reflexivity].
  rewrite orb_true_r. reflexivity.
Qed.

Lemma calculate_etas_loop_no_match (el : Dict) (ids : list string)
    (idxs : list nat) (vs : list Vehicle) (etas : list EtaSummary) :
  Forall (fun v => v_id v ∉ ids) vs ->
  calculate_etas_loop el ids idxs vs etas = (vs, Ok etas).
Proof.
  intros Hall. induction idxs as [|i rest IH]; cbn [calculate_etas_loop];
    [reflexivity|].
  destruct (vs !! i) as [v|] eqn:Hi; [|exact IH].
  rewrite bool_decide_eq_false_2; [exact IH|].
  exact (proj1 (Forall_lookup _ _) Hall i v Hi).
Qed.

(** X12: a batch request with a non-empty target and a non-empty list of
    ids none of which is the id of a vehicle is answered with an empty list,
    not with an error, and changes nothing. *)
Theorem batch_eta_unknown_ids
    (el : Dict) (ids : list string) (p : Processor) :
  dict_truthy (Some el) = true ->
  ids <> [] ->
  Forall (fun v => v_id v ∉ ids) (vehicles p) ->
  calculate_etas (Some el) ids p = (p, REtas []).
Proof.
  intros Hel Hids Hall. unfold calculate_etas. rewrite Hel.
  rewrite (bool_decide_eq_false_2 _ Hids). cbn [negb orb].
  rewrite (calculate_etas_loop_no_match el ids _ _ [] Hall).
  destruct p; reflexivity.
Qed.

Lemma refresh_requested_other (el : Dict) (ids : list string) (v : Vehicle) :
  v_id v ∉ ids -> refresh_requested el ids v = v.
Proof.
  intros H. unfold refresh_requested. rewrite bool_decide_eq_false_2 by exact H.
  reflexivity.
Qed.

Lemma calculate_etas_loop_erase (el : Dict) (ids : list string) (idxs : list nat) :
  forall vs etas,
    Forall (fun v => v_id v ∈ ids -> computable el v) (frame <$> vs) ->
    erase_distance <$> (calculate_etas_loop el ids idxs vs etas).1
    = foldl (fun acc i => alter (refresh_requested el ids) i acc)
            (erase_distance <$> vs) idxs.
Proof.
  induction idxs as [|i rest IH]; intros vs etas Hall;
    cbn [calculate_etas_loop foldl]; [reflexivity|].
  destruct (vs !! i) as [v|] eqn:Hi.
  - destruct (bool_decide (v_id v ∈ ids)) eqn:Hin.
    + apply bool_decide_eq_true in Hin.
      assert (computable el v) as Hv.
      { rewrite Forall_fmap in Hall.
        exact (proj1 (Forall_lookup _ _) Hall i v Hi Hin). }
      destruct (calculate_eta_computable vs el v Hv) as (vs1 & -> & He).
      set (eta := eta_num (eta_of (Some (location_of v)) (Some el))).
      rewrite IH.
      * rewrite erase_alter_set_eta, He. f_equal.
        apply list_alter_ext; [|reflexivity].
        intros x Hx. rewrite list_lookup_fmap, Hi in Hx.
        injection Hx as <-. unfold refresh_requested.
        change (v_id (erase_distance v)) with (v_id v).
        rewrite bool_decide_eq_true_2 by exact Hin. reflexivity.
      * rewrite frame_alter_set_eta, <- frame_erase_distance, He,
          frame_erase_distance. exact Hall.
    + apply bool_decide_eq_false in Hin. rewrite (IH _ _ Hall). f_equal.
      symmetry. etransitivity; [|apply (list_alter_id id); reflexivity].
      apply list_alter_ext; [|reflexivity].
      intros x Hx. rewrite list_lookup_fmap, Hi in Hx. injection Hx as <-.
      apply refresh_requested_other. exact Hin.
  - rewrite (IH _ _ Hall), alter_out_of_range; [reflexivity|].
    rewrite list_lookup_fmap, Hi. reflexivity.
Qed.

(** X13: for a non-empty target and a non-empty list of ids such that the
    ETA of every requested vehicle can be computed (no conversion and no
    library call raises), a batch request rewrites the [eta] of the
    requested vehicles and of no other: apart from the [distance] keys, the
    registry it leaves is the one before it with the [eta] of each
    requested vehicle replaced by the label of its ETA; a vehicle that is
    not requested keeps its [eta]. *)
Theorem batch_eta_writes_requested_only
    (el : Dict) (ids : list string) (p : Processor) :
  dict_truthy (Some el) = true ->
  ids <> [] ->
  Forall (fun v => v_id v ∈ ids -> computable el v) (vehicles p) ->
  let vs' := vehicles (calculate_etas (Some el) ids p).1 in
  erase_distance <$> vs'
  = erase_distance <$> (refresh_requested el ids <$> vehicles p)
  /\ forall i v,
       vehicles p !! i = Some v -> v_id v ∉ ids ->
       exists v', vs' !! i = Some v' /\ v_eta v' = v_eta v.
Proof.
  intros Hel Hids Hall vs'.
  assert (erase_distance <$> vs'
          = erase_distance <$> (refresh_requested el ids <$> vehicles p)) as He.
  { subst vs'. unfold calculate_etas. rewrite Hel.
    rewrite (bool_decide_eq_false_2 _ Hids). cbn [negb orb].
    pose proof (calculate_etas_loop_erase el ids (seq 0 (length (vehicles p)))
                  (vehicles p) []) as Hl.
    rewrite <- (length_fmap erase_distance (vehicles p)) in Hl at 2.
    rewrite foldl_alter_all in Hl.
    destruct (calculate_etas_loop _ _ _ _ _) as [vs [etas|]];
      cbn [fst vehicles with_vehicles] in *;
      (rewrite Hl; [|rewrite Forall_fmap; exact Hall]);
      rewrite <- !list_fmap_compose; apply list_fmap_ext;
      intros i x _; unfold refresh_requested; cbn;
      destruct (bool_decide _); reflexivity. }
  split; [exact He|].
  intros i v Hi Hin.
  assert ((erase_distance <$> vs') !! i = Some (erase_distance v)) as Hl.
  { rewrite He, !list_lookup_fmap, Hi. cbn.
    rewrite refresh_requested_other by exact Hin. reflexivity. }
  rewrite list_lookup_fmap in Hl.
  destruct (vs' !! i) as [v'|]; [|discriminate].
  exists v'. split; [reflexivity|].
  apply (inj Some) in Hl. exact (f_equal v_eta Hl).
Qed.

End BatchMore.

Lemma batch_eta_unknown_ids_witness :
  calculate_etas (RT := Sample.runtime) (Some Sample.target) ["V7"; "V8"]
                 Sample.fresh
  = (Sample.fresh, REtas []).
Proof.
  apply (batch_eta_unknown_ids (RT := Sample.runtime)).
  - vm_compute. reflexivity.
  - discriminate.
  - apply (bool_decide_unpack _). vm_compute. exact I.
Defined.

Lemma batch_eta_writes_witness :
  let vs' := vehicles (calculate_etas (RT := Sample.runtime)
                         (Some Sample.target) ["V2"] Sample.fresh).1 in
  erase_distance <$> vs'
  = erase_distance <$> (refresh_requested (RT := Sample.runtime)
                          Sample.target ["V2"] <$> vehicles Sample.fresh)
  /\ forall i v,
       vehicles Sample.fresh !! i = Some v -> v_id v ∉ ["V2"] ->
       exists v', vs' !! i = Some v' /\ v_eta v' = v_eta v.
Proof.
  apply (batch_eta_writes_requested_only (RT := Sample.runtime)
           Sample.target ["V2"] Sample.fresh).
  - vm_compute. reflexivity.
  - discriminate.
  - repeat constructor; intros _ H; vm_compute in H; discriminate.
Defined.

(** ** Location resolution, further *)

Section ResolutionMore.
Context {RT : PyRuntime}.

Lemma get_location_frame (phone : string) (p : Processor) :
  frame <$> vehicles (get_location phone p).1 = frame <$> vehicles p.
Proof.
  symmetry. apply list_eq_Forall2, Forall2_fmap.
  unfold get_location.
  destruct (get_location_from_phone phone) as [ld|];
    [|apply Forall_Forall2_diag, Forall_forall; reflexivity].
  pose proof (get_location_loop_evolves (fun v w => frame v = frame w)
                (fun d v w H => H) (fun s v w H => H) (ld_location ld)
                (seq 0 (length (vehicles p))) (vehicles p) (vehicles p)) as H1.
  destruct (get_location_loop _ _ _) as [vs [u|]];
    apply H1, Forall_Forall2_diag, Forall_forall; reflexivity.
Qed.

Lemma get_location_refreshed (phone : string) (entry : PhoneEntry) (p : Processor) :
  phone_locations !! phone = Some entry ->
  let loc : Dict := {[ "lat" := VNum (NFloat (pe_lat entry));
                       "lng" := VNum (NFloat (pe_lng entry)) ]} in
  Forall (computable loc) (frame <$> vehicles p) ->
  erase_distance <$> vehicles (get_location phone p).1
  = refresh loc <$> (frame <$> vehicles p).
Proof.
  intros H loc Hall. unfold get_location, get_location_from_phone. rewrite H.
  cbn [ld_location]. fold loc.
  destruct (get_location_loop_spec loc (seq 0 (length (vehicles p))) (vehicles p)
              Hall) as (vs' & -> & Hvs').
  cbn [fst vehicles with_vehicles].
  rewrite <- (length_fmap erase_distance (vehicles p)), foldl_alter_all in Hvs'.
  rewrite Hvs', <- !list_fmap_compose. apply list_fmap_ext.
  intros i x _. reflexivity.
Qed.

(** X14: when the ETA of every vehicle towards the location of a known
    phone can be computed (no conversion and no library call raises), the
    [eta] keys left by resolving that phone depend on no earlier
    resolution: resolving it after any other resolution leaves, apart from
    the [distance] keys, the registry that resolving it alone leaves. *)
Theorem last_resolution_decides_eta
    (first phone : string) (entry : PhoneEntry) (p : Processor) :
  phone_locations !! phone = Some entry ->
  Forall (computable {[ "lat" := VNum (NFloat (pe_lat entry));
                        "lng" := VNum (NFloat (pe_lng entry)) ]}) (vehicles p) ->
  erase_distance <$> vehicles (get_location phone (get_location first p).1).1
  = erase_distance <$> vehicles (get_location phone p).1.
Proof.
  intros H Hall.
  assert (Forall (computable {[ "lat" := VNum (NFloat (pe_lat entry));
                                "lng" := VNum (NFloat (pe_lng entry)) ]})
                 (frame <$> vehicles p)) as Hall'
    by (rewrite Forall_fmap; exact Hall).
  rewrite (get_location_refreshed phone entry p H Hall').
  rewrite (get_location_refreshed phone entry _ H);
    rewrite get_location_frame; [reflexivity | exact Hall'].
Qed.

Lemma foldl_alter_prefix_from {A : Type} (f : A -> A) (l1 l2 pre : list A) :
  foldl (fun acc i => alter f i acc) (pre ++ l1 ++ l2)
        (seq (length pre) (length l1))
  = pre ++ (f <$> l1) ++ l2.
Proof.
  revert pre. induction l1 as [|x l1 IH]; intros pre; [reflexivity|].
  cbn [length seq foldl app].
  replace (alter f (length pre) (pre ++ x :: l1 ++ l2))
    with ((pre ++ [f x]) ++ l1 ++ l2).
  - specialize (IH (pre ++ [f x])). rewrite length_app in IH. cbn in IH.
    rewrite Nat.add_1_r in IH. rewrite IH, <- app_assoc. reflexivity.
  - rewrite <- app_assoc. cbn.
    rewrite <- (Nat.add_0_r (length pre)). rewrite alter_app_r. reflexivity.
Qed.

Lemma foldl_alter_prefix {A : Type} (f : A -> A) (l : list A) (n : nat) :
  (n <= length l)%nat ->
  foldl (fun acc i => alter f i acc) l (seq 0 n) = (f <$> take n l) ++ drop n l.
Proof.
  intros Hn. rewrite <- (take_drop n l) at 1.
  pose proof (foldl_alter_prefix_from f (take n l) (drop n l) []) as H.
  rewrite length_take, Nat.min_l in H by exact Hn. exact H.
Qed.

Lemma get_location_loop_stops (loc : Dict) (i : nat) (rest pre : list nat) :
  forall vs v,
    (forall j w, j ∈ pre -> (frame <$> vs) !! j = Some w -> computable loc w) ->
    (frame <$> vs) !! i = Some v ->
    ~ computable loc v ->
    exists vs',
      get_location_loop loc (pre ++ i :: rest) vs = (vs', Raise)
      /\ erase_distance <$> vs'
         = foldl (fun acc j => alter (refresh loc) j acc)
                 (erase_distance <$> vs) pre.
Proof.
  induction pre as [|j pre IH]; intros vs v Hpre Hi Hn;
    cbn [app get_location_loop foldl].
  - rewrite list_lookup_fmap in Hi. destruct (vs !! i) as [w|]; [|discriminate].
    apply (inj Some) in Hi. subst v.
    rewrite (not_computable_raise loc w Hn). eauto.
  - destruct (vs !! j) as [w|] eqn:Hj.
    + assert (computable loc w) as Hw.
      { apply (Hpre j (frame w)); [left|].
        rewrite list_lookup_fmap, Hj. reflexivity. }
      destruct (calculate_eta_computable vs loc w Hw) as (vs1 & -> & He).
      set (eta := eta_num (eta_of (Some (location_of w)) (Some loc))).
      assert (frame <$> alter (set_eta (eta_label eta)) j vs1 = frame <$> vs) as Hf.
      { rewrite frame_alter_set_eta, <- frame_erase_distance, He.
        apply frame_erase_distance. }
      destruct (IH (alter (set_eta (eta_label eta)) j vs1) v)
        as (vs' & -> & Hvs').
      { intros k u Hk. rewrite Hf. apply Hpre. right. exact Hk. }
      { rewrite Hf. exact Hi. }
      { exact Hn. }
      exists vs'. split; [reflexivity|].
      rewrite Hvs', erase_alter_set_eta, He. f_equal.
      apply list_alter_ext; [|reflexivity].
      intros x Hx. rewrite list_lookup_fmap, Hj in Hx.
      injection Hx as <-. reflexivity.
    + destruct (IH vs v) as (vs' & -> & Hvs'); try assumption.
      { intros k u Hk. apply Hpre. right. exact Hk. }
      exists vs'. split; [reflexivity|].
      rewrite Hvs', alter_out_of_range; [reflexivity|].
      rewrite list_lookup_fmap, Hj. reflexivity.
Qed.

(** X15: when the ETA of some vehicle towards a known phone cannot be
    computed, [get_location] answers with the server error instead of the
    location, and what it has written by then is not undone: up to the
    [distance] keys, the vehicles that precede the first such vehicle have
    their [eta] rewritten and the others are as they were. *)
Theorem resolution_exception_is_not_undone
    (phone : string) (entry : PhoneEntry) (p : Processor) (i : nat) (v : Vehicle) :
  phone_locations !! phone = Some entry ->
  let loc : Dict := {[ "lat" := VNum (NFloat (pe_lat entry));
                       "lng" := VNum (NFloat (pe_lng entry)) ]} in
  vehicles p !! i = Some v ->
  ~ computable loc v ->
  Forall (computable loc) (take i (vehicles p)) ->
  (get_location phone p).2 = RException
  /\ erase_distance <$> vehicles (get_location phone p).1
     = erase_distance <$> ((refresh loc <$> take i (vehicles p))
                           ++ drop i (vehicles p)).
Proof.
  intros H loc Hi Hn Hpre.
  assert (i < length (vehicles p))%nat as Hlt
    by (apply lookup_lt_is_Some; eauto).
  unfold get_location, get_location_from_phone. rewrite H.
  cbn [ld_location]. fold loc.
  replace (seq 0 (length (vehicles p)))
    with (seq 0 i ++ i :: seq (S i) (length (vehicles p) - S i)).
  2:{ change (i :: seq (S i) (length (vehicles p) - S i))
        with (seq i (S (length (vehicles p) - S i))).
      rewrite <- (Nat.add_0_l i) at 2. rewrite <- seq_app. f_equal. lia. }
  destruct (get_location_loop_stops loc i
              (seq (S i) (length (vehicles p) - S i)) (seq 0 i) (vehicles p)
              (frame v)) as (vs' & -> & Hvs').
  - intros j w Hj Hw. apply elem_of_seq in Hj.
    rewrite list_lookup_fmap in Hw.
    destruct (vehicles p !! j) as [u|] eqn:Hu; [|discriminate Hw].
    apply (inj Some) in Hw. subst w.
    apply (proj1 (Forall_lookup _ _) Hpre j u).
    rewrite lookup_take_lt by lia. exact Hu.
  - rewrite list_lookup_fmap, Hi. reflexivity.
  - exact Hn.
  - cbn [fst snd vehicles with_vehicles]. split; [reflexivity|].
    rewrite Hvs', foldl_alter_prefix by (rewrite length_fmap; lia).
    rewrite <- fmap_take, <- fmap_drop, fmap_app. f_equal.
    rewrite <- !list_fmap_compose. apply list_fmap_ext.
    intros k x _. reflexivity.
Qed.

End ResolutionMore.

Lemma last_resolution_witness :
  erase_distance
    <$> vehicles (get_location (RT := Sample.runtime) "9876543212"
                    (get_location (RT := Sample.runtime) "9876543214"
                                  Sample.fresh).1).1
  = erase_distance
      <$> vehicles (get_location (RT := Sample.runtime) "9876543212"
                                 Sample.fresh).1.
Proof.
  apply (last_resolution_decides_eta (RT := Sample.runtime)
           "9876543214" "9876543212"
           (mkPhoneEntry 13.3420 77.1035 "Tumkur Railway Station") Sample.fresh).
  - vm_compute. reflexivity.
  - repeat constructor; intros H; vm_compute in H; discriminate H.
Defined.

Lemma resolution_exception_witness :
  let p := init (Some [Sample.unit1; Sample.unit5; Sample.unit2]) in
  let loc : Dict := {[ "lat" := VNum (NFloat 13.3415);
                       "lng" := VNum (NFloat 77.1030) ]} in
  (get_location (RT := Sample.runtime) "9876543211" p).2 = RException
  /\ erase_distance
       <$> vehicles (get_location (RT := Sample.runtime) "9876543211" p).1
     = erase_distance
         <$> ((refresh (RT := Sample.runtime) loc <$> take 1 (vehicles p))
              ++ drop 1 (vehicles p)).
Proof.
  apply (resolution_exception_is_not_undone (RT := Sample.runtime)
           "9876543211" (mkPhoneEntry 13.3415 77.1030 "Tumkur Bus Stand")
           (init (Some [Sample.unit1; Sample.unit5; Sample.unit2])) 1
           (set_status "AVAILABLE" (set_available true (set_eta "N/A" Sample.unit5)))).
  - vm_compute. reflexivity.
  - reflexivity.
  - intros H. apply H. vm_compute. reflexivity.
  - repeat constructor; intros H; vm_compute in H; discriminate H.
Defined.

(** ** The floor of the ETA *)

Lemma nonnegative_cases (d : float) :
  PrimFloat.leb 0 d = true ->
  PrimFloat.eqb d 0 = true \/ PrimFloat.ltb 0 d = true.
Proof.
  rewrite FloatAxioms.leb_spec, FloatAxioms.eqb_spec, FloatAxioms.ltb_spec.
  change (Prim2SF 0) with (S754_zero false).
  destruct (Prim2SF d) as [s|s| |s m e]; cbn; try (intros H; discriminate H).
  - auto.
  - destruct s; auto.
  - destruct s; auto.
Qed.

(** X16: for a distance that is not negative, the ETA is the integer 1 or a
    float that is not below 1, except for a distance equal to zero, whose
    ETA is zero: no positive distance gives an ETA under one minute. *)
Theorem eta_is_never_under_one_minute (d : float) :
  PrimFloat.leb 0 d = true ->
  match eta_minutes_of d with
  | NInt z => z = 1%Z /\ PrimFloat.ltb 0 d = true
  | NFloat r =>
      PrimFloat.ltb r 1 = true ->
      PrimFloat.eqb d 0 = true /\ PrimFloat.eqb r 0 = true
  end.
Proof.
  intros [Hz|Hpos]%nonnegative_cases.
  - rewrite (eta_minutes_of_zero d Hz). auto.
  - unfold eta_minutes_of. rewrite Hpos, andb_true_r.
    destruct (PrimFloat.ltb _ 1) eqn:Hlt.
    + auto.
    + intros H. rewrite Hlt in H. discriminate H.
Qed.

Lemma eta_floor_witness :
  match eta_minutes_of sample_distance with
  | NInt z => z = 1%Z /\ PrimFloat.ltb 0 sample_distance = true
  | NFloat r =>
      PrimFloat.ltb r 1 = true ->
      PrimFloat.eqb sample_distance 0 = true /\ PrimFloat.eqb r 0 = true
  end.
Proof.
  apply (eta_is_never_under_one_minute sample_distance).
  vm_compute. reflexivity.
Defined.

(** ** The spelling of the coordinate keys *)

Section Keys.
Context {RT : PyRuntime}.

(** X17: [calculate_eta] reads a location spelled with ["lat"] and ["lng"]
    as it reads the same location spelled with ["latitude"] and
    ["longitude"], on either side; when both spellings are present the long
    one is used, so that a null ["latitude"] hides a valid ["lat"] and the
    ETA is 0. *)
Theorem coordinate_spellings
    (vs : list Vehicle) (a b c d : value) (other : option Dict) :
  calculate_eta vs (Some {[ "lat" := a; "lng" := b ]}) other
  = calculate_eta vs (Some {[ "latitude" := a; "longitude" := b ]}) other
  /\ calculate_eta vs other (Some {[ "lat" := a; "lng" := b ]})
     = calculate_eta vs other (Some {[ "latitude" := a; "longitude" := b ]})
  /\ calculate_eta vs (Some {[ "latitude" := c; "lat" := a;
                               "longitude" := d; "lng" := b ]}) other
     = calculate_eta vs (Some {[ "latitude" := c; "longitude" := d ]}) other
  /\ calculate_eta vs (Some {[ "latitude" := VNone; "lat" := a; "lng" := b ]}) other
     = (vs, Ok (NInt 0)).
Proof.
  destruct other as [el|]; repeat split; try reflexivity.
  unfold calculate_eta.
  destruct (negb (dict_truthy (Some _)) || negb (dict_truthy (Some el)));
    reflexivity.
Qed.

End Keys.

(** ** Before the first report *)

Section BeforeReport.
Context {RT : PyRuntime}.

Lemma handle_before_report (r : request) (p : Processor) :
  (forall ph, ~ reports_for ph r) ->
  phone_to_location p = ∅ ->
  Forall still_available (vehicles p) ->
  phone_to_location (handle r p).1 = ∅
  /\ Forall still_available (vehicles (handle r p).1).
Proof.
  intros Hr Hm Hall. split.
  { rewrite handle_phone_to_location, Hm.
    destruct r as [t|n|el ids|[a|] [loc|]|vid b]; try reflexivity.
    destruct (Hr a). reflexivity. }
  destruct r as [t|n|el ids|ph loc|vid ph]; cbn [handle].
  - unfold get_vehicles. destruct (negb _); exact Hall.
  - unfold get_location.
    destruct (get_location_from_phone n) as [ld|]; [|exact Hall].
    pose proof (get_location_loop_preserves still_available
                  (fun d v H => H) (fun s v H => H) (ld_location ld)
                  (seq 0 (length (vehicles p))) (vehicles p) Hall) as H1.
    destruct (get_location_loop _ _ _) as [vs [u|]]; exact H1.
  - unfold calculate_etas.
    destruct el as [el|]; [|exact Hall].
    destruct (_ || _); [exact Hall|].
    pose proof (calculate_etas_loop_preserves still_available
                  (fun d v H => H) (fun s v H => H) el ids
                  (seq 0 (length (vehicles p))) (vehicles p) [] Hall) as H1.
    destruct (calculate_etas_loop _ _ _ _ _) as [vs [etas|]]; exact H1.
  - rewrite update_location_vehicles. exact Hall.
  - unfold dispatch_vehicle, get_phone_location.
    destruct vid as [vid|], ph as [ph|]; try exact Hall.
    destruct (_ || _); [exact Hall|].
    rewrite Hm, lookup_empty. exact Hall.
Qed.

(** X18: as long as no location has been reported, no vehicle is
    dispatched: after any requests none of which is a location report, on a
    freshly started system, every vehicle is available with status
    AVAILABLE, and every dispatch request is refused and changes nothing. *)
Theorem nothing_dispatched_before_a_report
    (data : option (list Vehicle)) (rs : list request)
    (vid ph : option string) :
  Forall (fun r => forall ph, ~ reports_for ph r) rs ->
  Forall (fun v => v_available v = true /\ v_status v = "AVAILABLE")
         (vehicles (run rs (init data)))
  /\ exists code message,
       dispatch_vehicle vid ph (run rs (init data))
       = (run rs (init data), RError code message).
Proof.
  intros Hrs.
  assert (phone_to_location (run rs (init data)) = ∅
          /\ Forall still_available (vehicles (run rs (init data)))) as [Hm Hall].
  { assert (phone_to_location (init data) = ∅
            /\ Forall still_available (vehicles (init data))) as H0.
    { split; [reflexivity|]. destruct data as [l|]; cbn; [|constructor].
      apply Forall_fmap, Forall_forall. intros v _. split; reflexivity. }
    revert H0. generalize (init data).
    induction Hrs as [|r rs Hr _ IH]; intros p [Hm Hall]; [auto|].
    cbn [run foldl]. apply IH, handle_before_report; assumption. }
  split; [exact Hall|].
  unfold dispatch_vehicle, get_phone_location.
  destruct vid as [a|], ph as [b|]; eauto.
  destruct (_ || _); [eauto|].
  rewrite Hm, lookup_empty. cbn. eauto.
Qed.

End BeforeReport.

Lemma before_report_witness :
  let rs := [GetLocation "9876543211";
             CalculateEtas (Some Sample.target) ["V1"; "V2"];
             GetVehicles (Some "fire");
             Dispatch (Some "V1") (Some "9876543211")] in
  Forall (fun v => v_available v = true /\ v_status v = "AVAILABLE")
         (vehicles (run (RT := Sample.runtime) rs
                        (init (Some [Sample.unit1; Sample.unit2; Sample.unit3]))))
  /\ exists code message,
       dispatch_vehicle (RT := Sample.runtime) (Some "V2") (Some "9876543211")
         (run (RT := Sample.runtime) rs
              (init (Some [Sample.unit1; Sample.unit2; Sample.unit3])))
       = (run (RT := Sample.runtime) rs
              (init (Some [Sample.unit1; Sample.unit2; Sample.unit3])),
          RError code message).
Proof.
  apply (nothing_dispatched_before_a_report (RT := Sample.runtime)
           (Some [Sample.unit1; Sample.unit2; Sample.unit3])
           [GetLocation "9876543211";
            CalculateEtas (Some Sample.target) ["V1"; "V2"];
            GetVehicles (Some "fire");
            Dispatch (Some "V1") (Some "9876543211")]
           (Some "V2") (Some "9876543211")).
  repeat constructor; intros ph H; exact H.
Defined.

(** ** Loading the catalog *)

(** X19: a catalog that cannot be read gives an empty registry; a catalog
    that can gives its vehicles in the same order, with their catalog data
    and [distance] as read, and with [eta] "N/A", [available] true and
    status AVAILABLE whatever the file says for these keys; loading what was
    loaded changes nothing. *)
Theorem load_vehicles_resets_state (l : list Vehicle) :
  load_vehicles None = []
  /\ catalog_part <$> load_vehicles (Some l) = catalog_part <$> l
  /\ v_distance <$> load_vehicles (Some l) = v_distance <$> l
  /\ Forall (fun v => v_eta v = "N/A" /\ v_available v = true
                      /\ v_status v = "AVAILABLE")
            (load_vehicles (Some l))
  /\ load_vehicles (Some (load_vehicles (Some l))) = load_vehicles (Some l).
Proof.
  split; [reflexivity|]. cbn [load_vehicles].
  change (@map Vehicle Vehicle) with (@fmap list _ Vehicle Vehicle).
  repeat split.
  - rewrite <- list_fmap_compose. apply list_fmap_ext. intros i x _. reflexivity.
  - rewrite <- list_fmap_compose. apply list_fmap_ext. intros i x _. reflexivity.
  - apply Forall_fmap, Forall_forall. intros v _. repeat split.
  - rewrite <- list_fmap_compose. apply list_fmap_ext. intros i x _. reflexivity.
Qed.
